(** * logistic_regression.py: the shift-distance sweep

    A shallow embedding of [src/logistic_regression.py]: the cluster
    generator, the classifier fitter, the per-distance experiment with its
    margin-width measurement, and the sweep driver with its two figures.

    Conventions.
    - A float64 of the script is a rational [Q]: arithmetic is exact, and the
      three non-finite results numpy can hand back ([inf], [-inf], [nan]) are
      the extra constructors of [Np.float64].  The one statement that turns
      on rounding, the shift of the second cluster, is also given in binary64
      ([F64]).
    - pyplot saves figures of positive size.  The first figure is
      [10 * n_rows] inches high, so a run is described for
      [step_num >= 1]; with no step there is no row to save.
    - A count ([n_samples], [step_num], [size], [num]) is a [nat]: numpy
      rejects a negative count before it does anything.
    - numpy's global random generator, scikit-learn and pyplot are not part of
      the script; they are the interfaces [NumpyRandom], [Sklearn] and
      [Pyplot], and every statement about the script holds for all of their
      implementations.  Calls into them return, except where the script itself
      catches what they raise (the path extraction inside the [try]). *)

From Stdlib Require Import Ascii String Decimal DecimalString.
From Stdlib Require Import QArith Qminmax ZArith List Bool Lia.
From Corelib Require Import PrimFloat.
Import ListNotations.

Open Scope Q_scope.

(** ** Exceptions and fallible results *)

Inductive exception : Type :=
| ValueError (msg : string)
| LibraryError (msg : string).

Inductive result (A : Type) : Type :=
| Ok (a : A)
| Raise (e : exception).

Arguments Ok {A} a.
Arguments Raise {A} e.

Definition bind {A B : Type} (r : result A) (k : A -> result B) : result B :=
  match r with
  | Ok a => k a
  | Raise e => Raise e
  end.

Notation "x <- r ;; k" := (bind r (fun x => k))
  (at level 61, r at next level, right associativity).

(** A 2-D point: one row of an [(n, 2)] array. *)
Definition point : Type := (Q * Q)%type.

(** ** The pieces of numpy the script calls *)

Module Np.

(** What a float64 computation can return. *)
Inductive float64 : Type :=
| Finite (q : Q)
| PosInf
| NegInf
| NaN.

Definition isnan (v : float64) : bool :=
  match v with NaN => true | _ => false end.

Definition isinf (v : float64) : bool :=
  match v with PosInf | NegInf => true | _ => false end.

(** [a / b] on float64 scalars and arrays: a zero divisor gives a signed
    infinity, or [nan] for [0 / 0], and raises nothing. *)
Definition true_divide (a b : Q) : float64 :=
  if Qeq_bool b 0 then
    match a ?= 0 with
    | Gt => PosInf
    | Lt => NegInf
    | Eq => NaN
    end
  else Finite (a / b).

(** [np.arange(0, n)] as floats. *)
Definition arange (n : nat) : list Q :=
  map (fun i => inject_Z (Z.of_nat i)) (seq 0 n).

(** [y[-1] = v] on a non-empty array. *)
Definition set_last (y : list Q) (v : Q) : list Q :=
  match y with
  | [] => []
  | _ => removelast y ++ [v]
  end.

(** [np.linspace(start, stop, num)] with [endpoint=True]. *)
Definition linspace (start stop : Q) (num : nat) : list Q :=
  let div := (Z.of_nat num - 1)%Z in
  let delta := stop - start in
  let y := arange num in
  let y :=
    if (0 <? div)%Z then
      let step := delta / inject_Z div in
      if Qeq_bool step 0
      then map (fun v => v / inject_Z div * delta) y
      else map (fun v => v * step) y
    else map (fun v => v * delta) y in
  let y := map (fun v => v + start) y in
  if (1 <? num)%nat then set_last y stop else y.

Definition zeros (n : nat) : list Q := repeat 0 n.
Definition ones (n : nat) : list Q := repeat 1 n.

(** [np.vstack((a, b))] on row lists and [np.hstack((a, b))] on vectors. *)
Definition vstack {A : Type} (a b : list A) : list A := a ++ b.
Definition hstack {A : Type} (a b : list A) : list A := a ++ b.

(** [X += v] with [v] broadcast over the rows. *)
Definition add_rows (X : list point) (v : point) : list point :=
  map (fun p => (fst p + fst v, snd p + snd v)) X.

(** Columns [X[:, 0]] and [X[:, 1]]. *)
Definition col0 (X : list point) : list Q := map fst X.
Definition col1 (X : list point) : list Q := map snd X.

(** [a.min()], [a.max()], [np.min(a)]: a zero-size array has no minimum. *)
Definition min (a : list Q) : result Q :=
  match a with
  | [] => Raise (ValueError
      "zero-size array to reduction operation minimum which has no identity")
  | x :: xs => Ok (fold_left Qmin xs x)
  end.

Definition max (a : list Q) : result Q :=
  match a with
  | [] => Raise (ValueError
      "zero-size array to reduction operation maximum which has no identity")
  | x :: xs => Ok (fold_left Qmax xs x)
  end.

(** [np.meshgrid(xs, ys)]: both outputs have one row per element of [ys]. *)
Definition meshgrid (xs ys : list Q) : list (list Q) * list (list Q) :=
  (map (fun _ => xs) ys, map (fun y => map (fun _ => y) xs) ys).

Definition ravel {A : Type} (m : list (list A)) : list A := concat m.

(** [np.c_[a, b]]: two vectors side by side, as rows. *)
Definition c_ (a b : list Q) : list point := combine a b.

(** The shape [(rows, cols)] of a matrix. *)
Definition shape {A : Type} (m : list (list A)) : nat * nat :=
  (length m, match m with [] => O | r :: _ => length r end).

(** [a.reshape((rows, cols))] of a vector, row by row. *)
Fixpoint reshape {A : Type} (rows cols : nat) (a : list A) : list (list A) :=
  match rows with
  | O => []
  | S r => firstn cols a :: reshape r cols (skipn cols a)
  end.

(** [a / b] element by element. *)
Fixpoint divide (a b : list Q) : list float64 :=
  match a, b with
  | x :: a', y :: b' => true_divide x y :: divide a' b'
  | _, _ => []
  end.

(** [a + c] with a scalar [c]. *)
Definition add_scalar (a : list Q) (c : Q) : list Q :=
  map (fun v => v + c) a.

(** [~np.isnan(a) & ~np.isinf(a)]. *)
Definition finite_mask (a : list float64) : list bool :=
  map (fun v => negb (isnan v) && negb (isinf v)) a.

(** [a[mask]] with a boolean mask. *)
Fixpoint select {A : Type} (a : list A) (mask : list bool) : list A :=
  match a, mask with
  | x :: a', b :: mask' =>
      if b then x :: select a' mask' else select a' mask'
  | _, _ => []
  end.

End Np.

(** ** Python's [format(v, ".2f")] *)

Module Fmt.

Local Open Scope string_scope.

(** The integer nearest to [q], ties to the even one. *)
Definition round_half_even (q : Q) : Z :=
  let n := Qnum q in
  let d := Zpos (Qden q) in
  let f := (n / d)%Z in
  match (2 * (n mod d) ?= d)%Z with
  | Lt => f
  | Gt => (f + 1)%Z
  | Eq => if Z.even f then f else (f + 1)%Z
  end.

Definition digit (d : Z) : ascii := ascii_of_N (48 + Z.to_N d).

(** [f"{q:.2f}"]: sign, integer digits, a dot and two decimals; a negative
    value that rounds to zero keeps its sign. *)
Definition fixed2 (q : Q) : string :=
  let c := Z.abs (round_half_even (q * 100)) in
  let sign := if (Qnum q <? 0)%Z then "-" else "" in
  sign ++ NilZero.string_of_uint (N.to_uint (Z.to_N (c / 100)))
       ++ "." ++ String (digit (c mod 100 / 10)) (String (digit (c mod 10)) "").

Definition fixed2_float (v : Np.float64) : string :=
  match v with
  | Np.Finite q => fixed2 q
  | Np.PosInf => "inf"
  | Np.NegInf => "-inf"
  | Np.NaN => "nan"
  end.

Definition newline : string := String (ascii_of_nat 10) "".

End Fmt.

(** ** Python objects the script relies on *)

(** Truth value of [min_distance]: [None] and a zero float are false. *)
Definition truthy (v : option Q) : bool :=
  match v with
  | None => false
  | Some m => negb (Qeq_bool m 0)
  end.

(** [d[k] = v] on a dict kept in insertion order. *)
Fixpoint dict_set {K V : Type} (eqb : K -> K -> bool) (k : K) (v : V)
    (d : list (K * V)) : list (K * V) :=
  match d with
  | [] => [(k, v)]
  | (k', v') :: d' =>
      if eqb k' k then (k', v) :: d' else (k', v') :: dict_set eqb k v d'
  end.

(** [enumerate(l, start)]. *)
Definition enumerate {A : Type} (l : list A) (start : nat) : list (nat * A) :=
  combine (seq start (length l)) l.

(** ** The libraries behind the script, as interfaces *)

(** numpy's global generator: [np.random.seed] installs a state that depends
    on the seed alone, and [np.random.multivariate_normal] draws [size] rows
    from a state and leaves the next one. *)
Class NumpyRandom : Type := {
  rng_state : Type;
  seed : Z -> rng_state;
  multivariate_normal :
    point -> point * point -> nat -> rng_state -> list point * rng_state
}.

(** The documented shape of a draw: [size] rows. *)
Definition mvn_shape (R : NumpyRandom) : Prop :=
  forall mean cov size s,
    length (fst (multivariate_normal mean cov size s)) = size.

(** scikit-learn: a fitted [LogisticRegression] with its first intercept and
    first coefficient row, the class probabilities [(P(0), P(1))] of one row,
    and [log_loss]. *)
Class Sklearn : Type := {
  LogisticRegression : Type;
  fit : list point -> list Q -> LogisticRegression;
  intercept_0 : LogisticRegression -> Q;
  coef_0 : LogisticRegression -> Q * Q;
  predict_proba_row : LogisticRegression -> point -> Q * Q;
  log_loss : list Q -> list (Q * Q) -> Q
}.

(** [model.predict_proba(X)]: one probability pair per row. *)
Definition predict_proba `{Sklearn} (model : LogisticRegression)
    (X : list point) : list (Q * Q) :=
  map (predict_proba_row model) X.

(** pyplot's contouring: [contour] and [contourf] over a grid with a list of
    levels, and [cs.collections[0].get_paths()], each path given by its
    vertex array; the extraction may raise. *)
Class Pyplot : Type := {
  ContourSet : Type;
  contour :
    list (list Q) -> list (list Q) -> list (list Q) -> list Q -> ContourSet;
  contourf :
    list (list Q) -> list (list Q) -> list (list Q) -> list Q -> ContourSet;
  get_paths : ContourSet -> result (list (list point))
}.

(** The square root [cdist] takes of a sum of squares. *)
Class RealSqrt : Type := sqrt : Q -> Q.

(** ** scipy's [cdist] *)

Definition euclidean `{RealSqrt} (u v : point) : Q :=
  sqrt ((fst u - fst v) * (fst u - fst v) + (snd u - snd v) * (snd u - snd v)).

(** [cdist(XA, XB)]: one row per point of [XA], one column per point of [XB]. *)
Definition cdist `{RealSqrt} (XA XB : list point) : list (list Q) :=
  map (fun a => map (fun b => euclidean a b) XB) XA.

(** ** The script *)

Section Script.

Context {R : NumpyRandom} {SK : Sklearn} {PLT : Pyplot} {SQ : RealSqrt}.

Definition result_dir : string := "results".

(** *** [generate_ellipsoid_clusters(distance, n_samples=100, cluster_std=0.5)]

    The global generator state goes in and comes out; the first statement
    replaces it by [seed 0]. *)
Definition generate_ellipsoid_clusters (distance : Q) (n_samples : nat)
    (cluster_std : Q) (s : rng_state)
    : (list point * list Q) * rng_state :=
  let s := seed 0 in
  let covariance_matrix :=
    ((cluster_std, cluster_std * 0.8), (cluster_std * 0.8, cluster_std)) in
  let '(X1, s) := multivariate_normal (1, 1) covariance_matrix n_samples s in
  let y1 := Np.zeros n_samples in
  let '(X2, s) := multivariate_normal (1, 1) covariance_matrix n_samples s in
  let shift_vector := (distance, distance) in
  let X2 := Np.add_rows X2 shift_vector in
  let y2 := Np.ones n_samples in
  let X := Np.vstack X1 X2 in
  let y := Np.hstack y1 y2 in
  ((X, y), s).

(** *** [fit_logistic_regression(X, y)] *)
Definition fit_logistic_regression (X : list point) (y : list Q)
    : LogisticRegression * Q * Q * Q :=
  let model := fit X y in
  let beta0 := intercept_0 model in
  let '(beta1, beta2) := coef_0 model in
  (model, beta0, beta1, beta2).

(** *** What [do_experiments] builds *)

(** One [contourf] pair of the confidence-band loop. *)
Record Band : Type := {
  band_level : Q;
  band_alpha : Q;
  band_class_1 : ContourSet;
  band_class_0 : ContourSet
}.

(** One subplot of the per-distance figure. *)
Record Panel : Type := {
  panel_subplot : nat * nat * nat;
  panel_scatter : list point * list Q;
  panel_xlim : Q * Q;
  panel_ylim : Q * Q;
  panel_boundary : ContourSet;
  panel_bands : list Band;
  panel_title : string;
  panel_equation : Q * Q * string;
  panel_margin : Q * Q * string;
  panel_legend : bool
}.

(** The seven subplots of the trends figure, each the two arguments of its
    [plt.plot]. *)
Record Trends : Type := {
  trend_beta0 : list Q * list Q;
  trend_beta1 : list Q * list Q;
  trend_beta2 : list Q * list Q;
  trend_slope : list Q * list Np.float64;
  trend_intercept : list Q * list Np.float64;
  trend_loss : list Q * list Q;
  trend_margin : list Q * list Np.float64
}.

Inductive Figure : Type :=
| PanelFigure (figsize : Q * Q) (axes : list Panel)
| TrendFigure (figsize : Q * Q) (plots : Trends).

(** A line printed to the console:
    [Error calculating margin width at distance {distance}: {e}]. *)
Inductive console_line : Type :=
| MarginError (distance : Q) (e : exception).

(** What the script reads and writes outside its own variables. *)
Record World : Type := {
  rng : rng_state;
  stdout : list console_line;
  files : list (string * Figure)
}.

(** A value of [sample_data]. *)
Definition Sample : Type :=
  (list point * list Q * LogisticRegression * Q * Q * Q * option Q)%type.

(** The local variables of [do_experiments] that outlive an iteration. *)
Record Locals : Type := {
  shift_distances : list Q;
  beta0_list : list Q;
  beta1_list : list Q;
  beta2_list : list Q;
  slope_list : list Np.float64;
  intercept_list : list Np.float64;
  loss_list : list Q;
  margin_widths : list Np.float64;
  sample_data : list (Q * Sample);
  axes : list Panel
}.

(** *** The margin width at the 0.7 level *)

(** The body of the [try]: [Some] the minimum vertex distance, [None] when
    a region has no path, or whatever was raised on the way. *)
Definition margin_try (class_1_contour class_0_contour : ContourSet)
    : result (option Q) :=
  c1_paths <- get_paths class_1_contour ;;
  c0_paths <- get_paths class_0_contour ;;
  match c1_paths, c0_paths with
  | _ :: _, _ :: _ =>
      let c1_vertices := concat c1_paths in
      let c0_vertices := concat c0_paths in
      let distances := cdist c1_vertices c0_vertices in
      min_distance <- Np.min (Np.ravel distances) ;;
      Ok (Some min_distance)
  | _, _ => Ok None
  end.

(** The variables the confidence-band loop updates. *)
Record BandState : Type := {
  min_distance : option Q;
  bs_margin_widths : list Np.float64;
  bs_stdout : list console_line;
  bs_bands : list Band
}.

(** One turn of [for level, alpha in zip(contour_levels, alphas)]. *)
Definition band_step (distance : Q) (xx yy Z : list (list Q))
    (st : BandState) (la : Q * Q) : BandState :=
  let '(level, alpha) := la in
  let class_1_contour := contourf xx yy Z [level; 1.0] in
  let class_0_contour := contourf xx yy Z [0.0; 1 - level] in
  let bands :=
    bs_bands st ++ [ {| band_level := level; band_alpha := alpha;
                        band_class_1 := class_1_contour;
                        band_class_0 := class_0_contour |} ] in
  if Qeq_bool level 0.7 then
    match margin_try class_1_contour class_0_contour with
    | Ok (Some m) =>
        {| min_distance := Some m;
           bs_margin_widths := bs_margin_widths st ++ [Np.Finite m];
           bs_stdout := bs_stdout st;
           bs_bands := bands |}
    | Ok None =>
        {| min_distance := min_distance st;
           bs_margin_widths := bs_margin_widths st ++ [Np.NaN];
           bs_stdout := bs_stdout st;
           bs_bands := bands |}
    | Raise e =>
        {| min_distance := min_distance st;
           bs_margin_widths := bs_margin_widths st ++ [Np.NaN];
           bs_stdout := bs_stdout st ++ [MarginError distance e];
           bs_bands := bands |}
    end
  else
    {| min_distance := min_distance st;
       bs_margin_widths := bs_margin_widths st;
       bs_stdout := bs_stdout st;
       bs_bands := bands |}.

Definition contour_levels : list Q := [0.7; 0.8; 0.9].
Definition alphas : list Q := [0.05; 0.1; 0.15].

(** The probability surface: [xx], [yy] and [Z] of one iteration. *)
Definition probability_grid (model : LogisticRegression)
    (x_min x_max y_min y_max : Q)
    : list (list Q) * list (list Q) * list (list Q) :=
  let '(xx, yy) :=
    Np.meshgrid (Np.linspace x_min x_max 200) (Np.linspace y_min y_max 200) in
  let Z := map snd (predict_proba model (Np.c_ (Np.ravel xx) (Np.ravel yy))) in
  let Z := Np.reshape (fst (Np.shape xx)) (snd (Np.shape xx)) Z in
  (xx, yy, Z).

Definition margin_text (min_distance : option Q) : string :=
  match min_distance with
  | Some m =>
      if truthy min_distance
      then ("Margin Width: " ++ Fmt.fixed2 m)%string
      else "Margin Width: N/A"%string
  | None => "Margin Width: N/A"%string
  end.

Definition equation_text (beta0 beta1 beta2 : Q)
    (slope intercept : Np.float64) : string :=
  (Fmt.fixed2 beta0 ++ " + " ++ Fmt.fixed2 beta1 ++ " * x1 + "
     ++ Fmt.fixed2 beta2 ++ " * x2 = 0" ++ Fmt.newline
     ++ "x2 = " ++ Fmt.fixed2_float slope ++ " * x1 + "
     ++ Fmt.fixed2_float intercept)%string.

(** The plot limits: the bounding box of the data, one unit wider on each
    side, as [(x_min, x_max, y_min, y_max)]. *)
Definition bounding_box (X : list point) : result (Q * Q * Q * Q) :=
  x_lo <- Np.min (Np.col0 X) ;;
  x_hi <- Np.max (Np.col0 X) ;;
  y_lo <- Np.min (Np.col1 X) ;;
  y_hi <- Np.max (Np.col1 X) ;;
  Ok (x_lo - 1, x_hi + 1, y_lo - 1, y_hi + 1).

(** The confidence-band loop, started with [min_distance = None]. *)
Definition confidence_bands (distance : Q) (xx yy Z : list (list Q))
    (margin_widths : list Np.float64) (stdout : list console_line)
    : BandState :=
  fold_left (band_step distance xx yy Z) (combine contour_levels alphas)
    {| min_distance := None;
       bs_margin_widths := margin_widths;
       bs_stdout := stdout;
       bs_bands := [] |}.

(** *** One iteration of the sweep

    The body of [for i, distance in enumerate(shift_distances, 1)]. *)
Definition experiment (n_rows n_cols : nat) (lw : Locals * World)
    (id : nat * Q) : result (Locals * World) :=
  let '(l, w) := lw in
  let '(i, distance) := id in
  let '((X, y), s) := generate_ellipsoid_clusters distance 100 0.5 (rng w) in
  let '(model, beta0, beta1, beta2) := fit_logistic_regression X y in
  let slope := Np.true_divide (- beta1) beta2 in
  let intercept := Np.true_divide (- beta0) beta2 in
  let loss := log_loss y (predict_proba model X) in
  box <- bounding_box X ;;
  let '(x_min, x_max, y_min, y_max) := box in
  let '(xx, yy, Z) := probability_grid model x_min x_max y_min y_max in
  let boundary := contour xx yy Z [0.5] in
  let st := confidence_bands distance xx yy Z (margin_widths l) (stdout w) in
  let panel :=
    {| panel_subplot := (n_rows, n_cols, i);
       panel_scatter := (X, y);
       panel_xlim := (x_min, x_max);
       panel_ylim := (y_min, y_max);
       panel_boundary := boundary;
       panel_bands := bs_bands st;
       panel_title := ("Shift Distance = " ++ Fmt.fixed2 distance)%string;
       panel_equation :=
         (x_min + 0.1, y_max - 1.0,
          equation_text beta0 beta1 beta2 slope intercept);
       panel_margin :=
         (x_min + 0.1, y_max - 1.5, margin_text (min_distance st));
       panel_legend := (i =? 1)%nat |} in
  Ok ({| shift_distances := shift_distances l;
         beta0_list := beta0_list l ++ [beta0];
         beta1_list := beta1_list l ++ [beta1];
         beta2_list := beta2_list l ++ [beta2];
         slope_list := slope_list l ++ [slope];
         intercept_list := intercept_list l ++ [intercept];
         loss_list := loss_list l ++ [loss];
         margin_widths := bs_margin_widths st;
         sample_data :=
           dict_set Qeq_bool distance
             (X, y, model, beta0, beta1, beta2, min_distance st)
             (sample_data l);
         axes := axes l ++ [panel] |},
      {| rng := s; stdout := bs_stdout st; files := files w |}).

(** The [for] loop: an iteration that raises ends the sweep. *)
Fixpoint sweep (n_rows n_cols : nat) (ids : list (nat * Q))
    (lw : Locals * World) : result (Locals * World) :=
  match ids with
  | [] => Ok lw
  | id :: ids' =>
      lw' <- experiment n_rows n_cols lw id ;;
      sweep n_rows n_cols ids' lw'
  end.

(** [plt.savefig(path)] of a figure. *)
Definition savefig (path : string) (fig : Figure) (w : World) : World :=
  {| rng := rng w; stdout := stdout w;
     files := dict_set String.eqb path fig (files w) |}.

(** The slope subplot: [beta1 / (beta2 + epsilon)], finite values only. *)
Definition slope_plot (shift_distances beta1_list beta2_list : list Q)
    : list Q * list Np.float64 :=
  let epsilon := 1 # 100000000 in
  let slopes := Np.divide beta1_list (Np.add_scalar beta2_list epsilon) in
  let valid_indices := Np.finite_mask slopes in
  (Np.select shift_distances valid_indices, Np.select slopes valid_indices).

(** The second figure, from the collected lists. *)
Definition plot_trends (l : Locals) : Trends :=
  {| trend_beta0 := (shift_distances l, beta0_list l);
     trend_beta1 := (shift_distances l, beta1_list l);
     trend_beta2 := (shift_distances l, beta2_list l);
     trend_slope :=
       slope_plot (shift_distances l) (beta1_list l) (beta2_list l);
     trend_intercept :=
       (shift_distances l, Np.divide (beta0_list l) (beta2_list l));
     trend_loss := (shift_distances l, loss_list l);
     trend_margin := (shift_distances l, margin_widths l) |}.

(** *** [do_experiments(start, end, step_num)] *)
Definition do_experiments (start end_ : Q) (step_num : nat) (w : World)
    : result (Locals * World) :=
  let shift_distances := Np.linspace start end_ step_num in
  let l :=
    {| shift_distances := shift_distances;
       beta0_list := []; beta1_list := []; beta2_list := [];
       slope_list := []; intercept_list := [];
       loss_list := []; margin_widths := [];
       sample_data := []; axes := [] |} in
  let n_samples := step_num in
  let n_cols := 2%nat in
  let n_rows := ((n_samples + n_cols - 1) / n_cols)%nat in
  lw <- sweep n_rows n_cols (enumerate shift_distances 1) (l, w) ;;
  let '(l, w) := lw in
  let w :=
    savefig (result_dir ++ "/dataset.png")
      (PanelFigure (20, inject_Z (Z.of_nat n_rows) * 10) (axes l)) w in
  let w :=
    savefig (result_dir ++ "/parameters_vs_shift_distance.png")
      (TrendFigure (18, 15) (plot_trends l)) w in
  Ok (l, w).

End Script.

(** ** The vocabulary of the statements *)

(** The points of a dataset that carry label [k]. *)
Definition class_points (k : Q) (D : list point * list Q) : list point :=
  map fst (filter (fun py => Qeq_bool (snd py) k) (combine (fst D) (snd D))).

(** A point moved by [(t, t)]. *)
Definition translate (t : Q) (p : point) : point := (fst p + t, snd p + t).

(** Two points with equal coordinates. *)
Definition point_eq (p q : point) : Prop := fst p == fst q /\ snd p == snd q.

(** The smallest and largest coordinates of a point set. *)
Definition tight_box (X : list point) (x_lo x_hi y_lo y_hi : Q) : Prop :=
  (In x_lo (map fst X) /\ forall p, In p X -> x_lo <= fst p) /\
  (In x_hi (map fst X) /\ forall p, In p X -> fst p <= x_hi) /\
  (In y_lo (map snd X) /\ forall p, In p X -> y_lo <= snd p) /\
  (In y_hi (map snd X) /\ forall p, In p X -> snd p <= y_hi).

(** What the [try] of the 0.7 level leaves behind: the entry appended to
    [margin_widths], the value of [min_distance], and the console lines. *)
Definition margin_entry (r : result (option Q)) : Np.float64 :=
  match r with
  | Ok (Some m) => Np.Finite m
  | _ => Np.NaN
  end.

Definition margin_value (r : result (option Q)) : option Q :=
  match r with
  | Ok (Some m) => Some m
  | _ => None
  end.

Definition margin_print (distance : Q) (r : result (option Q))
    : list console_line :=
  match r with
  | Raise e => [MarginError distance e]
  | _ => []
  end.

(** [d[k]] on a dict. *)
Fixpoint dict_get {K V : Type} (eqb : K -> K -> bool) (k : K)
    (d : list (K * V)) : option V :=
  match d with
  | [] => None
  | (k', v) :: d' => if eqb k' k then Some v else dict_get eqb k d'
  end.

(** What one distance of the sweep is run on, and what is fitted to it:
    the default arguments of the generator, and a state that does not
    matter. *)
Definition dataset {R : NumpyRandom} (d : Q) : list point * list Q :=
  fst (generate_ellipsoid_clusters d 100 0.5 (seed 0)).

Definition fitted {R : NumpyRandom} {SK : Sklearn} (d : Q) : LogisticRegression :=
  fit (fst (dataset d)) (snd (dataset d)).

Definition beta0_at {R : NumpyRandom} {SK : Sklearn} (d : Q) : Q :=
  intercept_0 (fitted d).

Definition beta1_at {R : NumpyRandom} {SK : Sklearn} (d : Q) : Q :=
  fst (coef_0 (fitted d)).

Definition beta2_at {R : NumpyRandom} {SK : Sklearn} (d : Q) : Q :=
  snd (coef_0 (fitted d)).

Definition loss_at {R : NumpyRandom} {SK : Sklearn} (d : Q) : Q :=
  log_loss (snd (dataset d)) (predict_proba (fitted d) (fst (dataset d))).

(** What the sweep adds to the collected lists, distance by distance. *)
Record sweep_adds {R : NumpyRandom} {SK : Sklearn} {PLT : Pyplot}
    (n_rows n_cols : nat) (ids : list (nat * Q))
    (l l' : Locals) (w w' : World) : Prop := {
  adds_distances : shift_distances l' = shift_distances l;
  adds_beta0 :
    beta0_list l' = beta0_list l ++ map (fun id => beta0_at (snd id)) ids;
  adds_beta1 :
    beta1_list l' = beta1_list l ++ map (fun id => beta1_at (snd id)) ids;
  adds_beta2 :
    beta2_list l' = beta2_list l ++ map (fun id => beta2_at (snd id)) ids;
  adds_slope :
    slope_list l' = slope_list l ++
      map (fun id => Np.true_divide (- beta1_at (snd id)) (beta2_at (snd id)))
        ids;
  adds_intercept :
    intercept_list l' = intercept_list l ++
      map (fun id => Np.true_divide (- beta0_at (snd id)) (beta2_at (snd id)))
        ids;
  adds_loss :
    loss_list l' = loss_list l ++ map (fun id => loss_at (snd id)) ids;
  adds_margin :
    length (margin_widths l') = (length (margin_widths l) + length ids)%nat;
  adds_titles :
    map panel_title (axes l') = map panel_title (axes l) ++
      map (fun id => ("Shift Distance = " ++ Fmt.fixed2 (snd id))%string) ids;
  adds_subplots :
    map panel_subplot (axes l') = map panel_subplot (axes l) ++
      map (fun id => (n_rows, n_cols, fst id)) ids;
  adds_files : files w' = files w
}.

(** The two paths [do_experiments] saves to. *)
Definition dataset_png : string := "results/dataset.png".
Definition trends_png : string := "results/parameters_vs_shift_distance.png".

(** The slope subplot as the specification words it: the derived slope
    [-weight_x1 / weight_x2] with a small epsilon added to the denominator,
    non-finite values left out. *)
Definition spec_slope_plot (shift_distances beta1_list beta2_list : list Q)
    : list Q * list Np.float64 :=
  let epsilon := 1 # 100000000 in
  let slopes :=
    Np.divide (map Qopp beta1_list) (Np.add_scalar beta2_list epsilon) in
  (Np.select shift_distances (Np.finite_mask slopes),
   Np.select slopes (Np.finite_mask slopes)).

(** What a panel shows of the iteration [(i, distance)] that drew it: its
    slot in the subplot grid, the legend flag, the title, the scattered
    dataset, and limits that are the least coordinate of the data minus 1
    and the greatest plus 1. *)
Definition panel_for {R : NumpyRandom} {SK : Sklearn} {PLT : Pyplot}
    (n_rows n_cols : nat) (id : nat * Q) (panel : Panel) : Prop :=
  panel_subplot panel = (n_rows, n_cols, fst id) /\
  panel_legend panel = (fst id =? 1)%nat /\
  panel_title panel = ("Shift Distance = " ++ Fmt.fixed2 (snd id))%string /\
  panel_scatter panel = dataset (snd id) /\
  exists x_lo x_hi y_lo y_hi,
    tight_box (fst (dataset (snd id))) x_lo x_hi y_lo y_hi /\
    panel_xlim panel = (x_lo - 1, x_hi + 1) /\
    panel_ylim panel = (y_lo - 1, y_hi + 1).

(** The record [sample_data] keeps for a distance, up to its last
    component. *)
Definition sample_of {R : NumpyRandom} {SK : Sklearn} (d : Q)
    (min_distance : option Q) : Sample :=
  (fst (dataset d), snd (dataset d), fitted d,
   beta0_at d, beta1_at d, beta2_at d, min_distance).

(** A value numpy calls non-finite. *)
Definition non_finite (v : Np.float64) : Prop :=
  Np.isnan v = true \/ Np.isinf v = true.

(** What the script needs of the square root. *)
Definition sqrt_laws (SQ : RealSqrt) : Prop :=
  (forall q, 0 <= sqrt q) /\ (forall q, q == 0 -> sqrt q == 0).

(** ** The shift of the second cluster in binary64

    [X2 += shift_vector] as numpy performs it on float64 rows: one rounded
    addition per coordinate. *)

Module F64.

Definition point : Type := (float * float)%type.

Definition add_rows (X : list point) (v : point) : list point :=
  map (fun p => (PrimFloat.add (fst p) (fst v), PrimFloat.add (snd p) (snd v)))
    X.

(** The second cluster of [generate_ellipsoid_clusters], from its draw. *)
Definition shift_cluster (distance : float) (X2 : list point) : list point :=
  let shift_vector := (distance, distance) in
  add_rows X2 shift_vector.

(** A point moved by [(t, t)]. *)
Definition translate (t : float) (p : point) : point :=
  (PrimFloat.add (fst p) t, PrimFloat.add (snd p) t).

(** [==] on both coordinates. *)
Definition point_eqb (p q : point) : bool :=
  PrimFloat.eqb (fst p) (fst q) && PrimFloat.eqb (snd p) (snd q).

End F64.

(** ** A small implementation of the interfaces

    Rational stand-ins for the three libraries, on which the script runs to
    the end: a counter-driven sampler, a classifier whose boundary is the
    anti-diagonal through the centroid, and a contouring that keeps, in each
    grid row, the first grid point whose value lies between the levels. *)

Module Toy.

Definition draw (mean : point) (cov : point * point) (s : Z) (k : nat)
    : point :=
  let a := inject_Z ((s + Z.of_nat k) mod 5 - 2) in
  let b := inject_Z ((s + 2 * Z.of_nat k) mod 3 - 1) in
  (Qred (fst mean + a * fst (fst cov)), Qred (snd mean + b * snd (snd cov))).

#[export] Instance random : NumpyRandom := {|
  rng_state := Z;
  seed := fun n => n;
  multivariate_normal := fun mean cov size s =>
    (map (draw mean cov s) (seq 0 size), (s + Z.of_nat size)%Z)
|}.

Definition total (a : list Q) : Q := fold_left Qplus a 0.

Definition clamp01 (p : Q) : Q := Qmax 0 (Qmin 1 p).

#[export] Instance sklearn : Sklearn := {|
  LogisticRegression := Q * Q * Q;
  fit := fun X y =>
    let n := inject_Z (Z.of_nat (length X)) in
    (Qred (- (total (map fst X) + total (map snd X)) / n), 1, 1);
  intercept_0 := fun m => fst (fst m);
  coef_0 := fun m => (snd (fst m), snd m);
  predict_proba_row := fun m p =>
    let t := fst (fst m) + snd (fst m) * fst p + snd m * snd p in
    let p1 := Qred (clamp01 ((1 # 2) + t / 4)) in
    (1 - p1, p1);
  log_loss := fun y P => 0
|}.

Definition between (levels : list Q) (z : Q) : bool :=
  match levels with
  | [lo; hi] => Qle_bool lo z && Qle_bool z hi
  | _ => false
  end.

Definition first_hit (levels : list Q) (row : list (Q * Q * Q))
    : list point :=
  match filter (fun v => between levels (snd v)) row with
  | [] => []
  | v :: _ => [fst v]
  end.

Definition region (xx yy Z : list (list Q)) (levels : list Q)
    : list (list point) :=
  let rows :=
    map (fun r => combine (combine (fst (fst r)) (snd (fst r))) (snd r))
        (combine (combine xx yy) Z) in
  match concat (map (first_hit levels) rows) with
  | [] => []
  | vs => [vs]
  end.

#[export] Instance pyplot : Pyplot := {|
  ContourSet := list (list point);
  contour := region;
  contourf := region;
  get_paths := fun cs => Ok cs
|}.

(** A contouring that finds no geometry at any level. *)
Definition blank : Pyplot := {|
  ContourSet := unit;
  contour := fun _ _ _ _ => tt;
  contourf := fun _ _ _ _ => tt;
  get_paths := fun _ => Ok []
|}.

(** A contouring whose two regions always meet in the vertex [(0, 0)]. *)
Definition touching : Pyplot := {|
  ContourSet := unit;
  contour := fun _ _ _ _ => tt;
  contourf := fun _ _ _ _ => tt;
  get_paths := fun _ => Ok [[(0, 0)]]
|}.

(** A classifier whose fit always has a vertical boundary: [beta2 = 0]. *)
Definition flat : Sklearn := {|
  LogisticRegression := unit;
  fit := fun _ _ => tt;
  intercept_0 := fun _ => -1;
  coef_0 := fun _ => (1, 0);
  predict_proba_row := fun _ p => (1 # 2, 1 # 2);
  log_loss := fun _ _ => 0
|}.

(** The square root to four decimals. *)
#[export] Instance sqrt4 : RealSqrt := fun q =>
  Z.sqrt (Qnum q * Zpos (Qden q) * 100000000) # (Qden q * 10000).

Definition world0 : World :=
  {| rng := 17%Z; stdout := []; files := [] |}.

(** The local variables before the first iteration of a one-step sweep. *)
Definition locals0 : Locals :=
  {| shift_distances := [1 # 4];
     beta0_list := []; beta1_list := []; beta2_list := [];
     slope_list := []; intercept_list := [];
     loss_list := []; margin_widths := [];
     sample_data := []; axes := [] |}.

(** The same start, for the contouring that finds nothing. *)
Definition blank_world : World (PLT := blank) :=
  @Build_World random blank 17%Z [] [].

Definition touching_world : World (PLT := touching) :=
  @Build_World random touching 17%Z [] [].

Definition touching_locals : Locals (PLT := touching) :=
  @Build_Locals sklearn touching [1 # 4] [] [] [] [] [] [] [] [] [].

Definition blank_locals : Locals (PLT := blank) :=
  @Build_Locals sklearn blank [1 # 4] [] [] [] [] [] [] [] [] [].

(** The script on these implementations. *)
Definition run (start end_ : Q) (step_num : nat) (w : World)
    : result (Locals * World) :=
  do_experiments start end_ step_num w.

End Toy.

(** * Properties *)

(** ** Lists and rationals *)

Lemma combine_app_eq {A B : Type} (a1 a2 : list A) (b1 b2 : list B) :
  length a1 = length b1 ->
  combine (a1 ++ a2) (b1 ++ b2) = combine a1 b1 ++ combine a2 b2.
Proof.
  revert b1; induction a1 as [|x a1 IH]; intros [|y b1] Hlen;
    simpl in *; try discriminate; auto.
  f_equal. apply IH. now injection Hlen.
Qed.

Lemma filter_label_keep (k : Q) (X : list point) :
  map fst (filter (fun py : point * Q => Qeq_bool (snd py) k)
             (combine X (repeat k (length X)))) = X.
Proof.
  induction X as [|p X IH]; simpl; auto.
  rewrite Qeq_bool_refl. simpl. now rewrite IH.
Qed.

Lemma filter_label_drop (k k' : Q) (X : list point) (n : nat) :
  Qeq_bool k' k = false ->
  filter (fun py : point * Q => Qeq_bool (snd py) k) (combine X (repeat k' n))
  = [].
Proof.
  intros Hk. revert n; induction X as [|p X IH]; intros [|n]; simpl; auto.
  rewrite Hk. apply IH.
Qed.

Lemma Qmin_cases (x y : Q) : Qmin x y = x \/ Qmin x y = y.
Proof.
  unfold Qmin, GenericMinMax.gmin. destruct (x ?= y); auto.
Qed.

Lemma Qmax_cases (x y : Q) : Qmax x y = x \/ Qmax x y = y.
Proof.
  unfold Qmax, GenericMinMax.gmax. destruct (x ?= y); auto.
Qed.

Lemma fold_Qmin_spec (xs : list Q) (x : Q) :
  In (fold_left Qmin xs x) (x :: xs) /\
  forall v, In v (x :: xs) -> fold_left Qmin xs x <= v.
Proof.
  revert x; induction xs as [|y xs IH]; intros x; simpl.
  - split; [now left|]. intros v [<-|[]]. apply Qle_refl.
  - destruct (IH (Qmin x y)) as [Hin Hle]. split.
    + destruct Hin as [Hin|Hin]; [|now right; right].
      rewrite <- Hin. destruct (Qmin_cases x y) as [->| ->]; auto.
    + intros v [<-|[<-|Hv]].
      * eapply Qle_trans; [apply Hle; now left | apply Q.le_min_l].
      * eapply Qle_trans; [apply Hle; now left | apply Q.le_min_r].
      * apply Hle. now right.
Qed.

Lemma fold_Qmax_spec (xs : list Q) (x : Q) :
  In (fold_left Qmax xs x) (x :: xs) /\
  forall v, In v (x :: xs) -> v <= fold_left Qmax xs x.
Proof.
  revert x; induction xs as [|y xs IH]; intros x; simpl.
  - split; [now left|]. intros v [<-|[]]. apply Qle_refl.
  - destruct (IH (Qmax x y)) as [Hin Hle]. split.
    + destruct Hin as [Hin|Hin]; [|now right; right].
      rewrite <- Hin. destruct (Qmax_cases x y) as [->| ->]; auto.
    + intros v [<-|[<-|Hv]].
      * eapply Qle_trans; [apply Q.le_max_l | apply Hle; now left].
      * eapply Qle_trans; [apply Q.le_max_r | apply Hle; now left].
      * apply Hle. now right.
Qed.

(** [np.min] returns on a non-empty array, and what it returns is a least
    element. *)
Lemma np_min_spec (a : list Q) :
  a <> [] ->
  exists m, Np.min a = Ok m /\ In m a /\ forall v, In v a -> m <= v.
Proof.
  destruct a as [|x xs]; [congruence|]. intros _.
  exists (fold_left Qmin xs x). split; [reflexivity|]. apply fold_Qmin_spec.
Qed.

Lemma np_max_spec (a : list Q) :
  a <> [] ->
  exists m, Np.max a = Ok m /\ In m a /\ forall v, In v a -> v <= m.
Proof.
  destruct a as [|x xs]; [congruence|]. intros _.
  exists (fold_left Qmax xs x). split; [reflexivity|]. apply fold_Qmax_spec.
Qed.

Lemma np_min_ok_inv (a : list Q) (m : Q) :
  Np.min a = Ok m -> a <> [] /\ In m a /\ forall v, In v a -> m <= v.
Proof.
  destruct a as [|x xs]; [discriminate|]. intros [= <-].
  split; [discriminate|]. apply fold_Qmin_spec.
Qed.

(** ** The toy interfaces obey the documented shape *)

Lemma toy_mvn_shape : mvn_shape Toy.random.
Proof.
  intros mean cov size s. simpl. now rewrite length_map, length_seq.
Defined.

(** ** The cluster generator *)

Section Generator.

Context {R : NumpyRandom}.

(** The generator, with its two draws named. *)
Lemma generate_unfold (d : Q) (n : nat) (c : Q) (s : rng_state) :
  let cov := ((c, c * 0.8), (c * 0.8, c)) in
  let r1 := multivariate_normal (1, 1) cov n (seed 0) in
  let r2 := multivariate_normal (1, 1) cov n (snd r1) in
  generate_ellipsoid_clusters d n c s =
  ((fst r1 ++ map (translate d) (fst r2), repeat 0 n ++ repeat 1 n), snd r2).
Proof.
  intros cov r1 r2. unfold generate_ellipsoid_clusters.
  fold cov. fold r1. destruct r1 as [X1 s1] eqn:E1. simpl in r2.
  fold r2. destruct r2 as [X2 s2]. reflexivity.
Qed.

Lemma class_0_points (X1 X2 : list point) (n : nat) :
  length X1 = n ->
  class_points 0 (X1 ++ X2, repeat 0 n ++ repeat 1 n) = X1.
Proof.
  intros <-. unfold class_points. simpl fst; simpl snd.
  rewrite combine_app_eq by now rewrite repeat_length.
  rewrite filter_app, map_app, filter_label_keep.
  rewrite filter_label_drop by reflexivity. apply app_nil_r.
Qed.

Lemma class_1_points (X1 X2 : list point) (n : nat) :
  length X1 = n -> length X2 = n ->
  class_points 1 (X1 ++ X2, repeat 0 n ++ repeat 1 n) = X2.
Proof.
  intros H1 H2. unfold class_points. simpl fst; simpl snd.
  rewrite combine_app_eq by now rewrite repeat_length.
  rewrite filter_app, map_app.
  rewrite filter_label_drop by reflexivity.
  rewrite <- H2 at 1. now rewrite filter_label_keep.
Qed.

End Generator.

Section GeneratorClaims.

Context {R : NumpyRandom}.

(** C3. Two calls of [generate_ellipsoid_clusters] with the same
    [(distance, n_samples, cluster_std)] return the same points and labels,
    whatever state the global generator is in when each call starts; in
    particular a second call made right after the first, on the state the
    first one left, reproduces its dataset. *)
Theorem generate_deterministic (distance : Q) (n_samples : nat)
    (cluster_std : Q) :
  (forall s s' : rng_state,
     fst (generate_ellipsoid_clusters distance n_samples cluster_std s) =
     fst (generate_ellipsoid_clusters distance n_samples cluster_std s')) /\
  (forall s : rng_state,
     let first := generate_ellipsoid_clusters distance n_samples cluster_std s in
     let second :=
       generate_ellipsoid_clusters distance n_samples cluster_std (snd first) in
     fst second = fst first).
Proof.
  split.
  - intros s s'. now rewrite !generate_unfold.
  - intros s first second. subst first second. now rewrite !generate_unfold.
Qed.

(** C4. When a draw of [size] rows has [size] rows,
    [generate_ellipsoid_clusters] returns [2 * n_samples] points, and its
    label vector is [n_samples] zeros followed by [n_samples] ones: the
    points with label 0 are the first [n_samples] rows and those with label 1
    the last [n_samples]. *)
Theorem generate_label_balance (Hshape : mvn_shape R) (distance : Q)
    (n_samples : nat) (cluster_std : Q) (s : rng_state) :
  let D := fst (generate_ellipsoid_clusters distance n_samples cluster_std s) in
  length (fst D) = (2 * n_samples)%nat /\
  snd D = repeat 0 n_samples ++ repeat 1 n_samples /\
  length (snd D) = (2 * n_samples)%nat /\
  class_points 0 D = firstn n_samples (fst D) /\
  class_points 1 D = skipn n_samples (fst D) /\
  length (class_points 0 D) = n_samples /\
  length (class_points 1 D) = n_samples.
Proof.
  intros D. subst D. rewrite generate_unfold. cbv zeta. simpl fst; simpl snd.
  set (cov := ((cluster_std, cluster_std * 0.8),
               (cluster_std * 0.8, cluster_std))).
  set (r1 := multivariate_normal (1, 1) cov n_samples (seed 0)).
  set (r2 := multivariate_normal (1, 1) cov n_samples (snd r1)).
  assert (H1 : length (fst r1) = n_samples) by apply Hshape.
  assert (H2 : length (map (translate distance) (fst r2)) = n_samples)
    by (rewrite length_map; apply Hshape).
  rewrite class_0_points, class_1_points by assumption.
  rewrite !length_app, !repeat_length, H1, H2.
  repeat split; try lia.
  - rewrite <- H1 at 1. rewrite firstn_app, firstn_all, Nat.sub_diag.
    simpl. now rewrite app_nil_r.
  - rewrite <- H1 at 1. rewrite skipn_app, skipn_all, Nat.sub_diag.
    reflexivity.
Qed.

(** C5. Both draws of [generate_ellipsoid_clusters] use the mean [(1, 1)]
    and the covariance matrix with [cluster_std] on the diagonal and
    [cluster_std * 0.8] off it; the first draw is cluster 0 as it is, and
    cluster 1 is the second draw, made from the state the first left, with
    [(distance, distance)] added to every row. *)
Theorem generate_clusters_structure (distance : Q) (n_samples : nat)
    (cluster_std : Q) (s : rng_state) :
  let cov :=
    ((cluster_std, cluster_std * (8 # 10)),
     (cluster_std * (8 # 10), cluster_std)) in
  exists (X1 X2 : list point) (s1 s2 : rng_state),
    multivariate_normal (1, 1) cov n_samples (seed 0) = (X1, s1) /\
    multivariate_normal (1, 1) cov n_samples s1 = (X2, s2) /\
    fst (fst (generate_ellipsoid_clusters distance n_samples cluster_std s)) =
      X1 ++ map (fun p => (fst p + distance, snd p + distance)) X2 /\
    snd (generate_ellipsoid_clusters distance n_samples cluster_std s) = s2.
Proof.
  intros cov. rewrite generate_unfold. cbv zeta. fold cov.
  destruct (multivariate_normal (1, 1) cov n_samples (seed 0))
    as [X1 s1] eqn:E1.
  simpl snd.
  destruct (multivariate_normal (1, 1) cov n_samples s1) as [X2 s2] eqn:E2.
  exists X1, X2, s1, s2. repeat split. exact E2.
Qed.

(** C9 (amended). When a draw of [size] rows has [size] rows: for two
    distances [d] and [d'] and the same [n_samples] and [cluster_std], the
    datasets have the same label vector and the same class-0 points, and
    their class-1 points are one and the same draw [B], the second one after
    seeding with 0, with [(d, d)] added to every row in one dataset and
    [(d', d')] in the other.  In exact arithmetic, which is how numbers are
    read here, each class-1 point at [d] is therefore the class-1 point at
    [d'] in the same position moved by [(d - d', d - d')]. *)
Theorem generate_shift_relation (Hshape : mvn_shape R) (d d' : Q)
    (n_samples : nat) (cluster_std : Q) (s s' : rng_state) :
  let D := fst (generate_ellipsoid_clusters d n_samples cluster_std s) in
  let D' := fst (generate_ellipsoid_clusters d' n_samples cluster_std s') in
  snd D = snd D' /\
  class_points 0 D = class_points 0 D' /\
  (exists B : list point,
     length B = n_samples /\
     class_points 1 D = map (fun p => (fst p + d, snd p + d)) B /\
     class_points 1 D' = map (fun p => (fst p + d', snd p + d')) B) /\
  length (class_points 1 D) = n_samples /\
  Forall2 (fun p p' => point_eq p (translate (d - d') p'))
    (class_points 1 D) (class_points 1 D').
Proof.
  intros D D'. subst D D'. rewrite !generate_unfold. cbv zeta.
  simpl fst; simpl snd.
  set (cov := ((cluster_std, cluster_std * 0.8),
               (cluster_std * 0.8, cluster_std))).
  set (r1 := multivariate_normal (1, 1) cov n_samples (seed 0)).
  set (r2 := multivariate_normal (1, 1) cov n_samples (snd r1)).
  assert (H1 : length (fst r1) = n_samples) by apply Hshape.
  assert (H2 : forall t, length (map (translate t) (fst r2)) = n_samples)
    by (intros t; rewrite length_map; apply Hshape).
  rewrite !class_0_points, !class_1_points by auto.
  split; [reflexivity|]. split; [reflexivity|]. split.
  { exists (fst r2). split; [apply Hshape|]. split; reflexivity. }
  split; [apply H2|].
  clear. induction (fst r2) as [|p X IH]; simpl; constructor; auto.
  unfold point_eq, translate. simpl. split; ring.
Qed.

End GeneratorClaims.

Lemma generate_label_balance_witness :
  let D := fst (generate_ellipsoid_clusters (R := Toy.random) (1 # 4) 100 (1 # 2) 17%Z) in
  length (fst D) = (2 * 100)%nat /\
  snd D = repeat 0 100 ++ repeat 1 100 /\
  length (snd D) = (2 * 100)%nat /\
  class_points 0 D = firstn 100 (fst D) /\
  class_points 1 D = skipn 100 (fst D) /\
  length (class_points 0 D) = 100%nat /\
  length (class_points 1 D) = 100%nat.
Proof.
  exact (generate_label_balance (R := Toy.random) toy_mvn_shape (1 # 4) 100 (1 # 2) 17%Z).
Defined.

Lemma generate_shift_relation_witness :
  let D := fst (generate_ellipsoid_clusters (R := Toy.random) (1 # 4) 100 (1 # 2) 17%Z) in
  let D' := fst (generate_ellipsoid_clusters (R := Toy.random) 2 100 (1 # 2) 5%Z) in
  snd D = snd D' /\
  class_points 0 D = class_points 0 D' /\
  (exists B : list point,
     length B = 100%nat /\
     class_points 1 D = map (fun p => (fst p + (1 # 4), snd p + (1 # 4))) B /\
     class_points 1 D' = map (fun p => (fst p + 2, snd p + 2)) B) /\
  length (class_points 1 D) = 100%nat /\
  Forall2 (fun p p' => point_eq p (translate ((1 # 4) - 2) p'))
    (class_points 1 D) (class_points 1 D').
Proof.
  exact (generate_shift_relation (R := Toy.random) toy_mvn_shape (1 # 4) 2 100 (1 # 2) 17%Z 5%Z).
Defined.

(** C9, as stated, fails in float64: with the draw [(0.1, 0.1)], the point
    of the dataset at distance 0.25 is not the point of the dataset at
    distance 2 moved by [0.25 - 2]: the first is [0.1 + 0.25], the second
    [(0.1 + 2) + (0.25 - 2)], and the two roundings differ. *)
Lemma float_shift_not_exact :
  let raw : F64.point := (0x1.999999999999ap-4, 0x1.999999999999ap-4)%float in
  let d := 0.25%float in
  let d' := 2%float in
  exists p p' : F64.point,
    F64.shift_cluster d [raw] = [p] /\
    F64.shift_cluster d' [raw] = [p'] /\
    F64.point_eqb p (F64.translate (PrimFloat.sub d d') p') = false.
Proof.
  cbv zeta. eexists. eexists.
  split; [reflexivity|]. split; [reflexivity|].
  vm_compute. reflexivity.
Qed.

(** ** [np.linspace] *)

Lemma nth_map_seq (g : nat -> Q) (m i : nat) (d : Q) :
  (i < m)%nat -> nth i (map g (seq 0 m)) d = g i.
Proof.
  intros Hi. rewrite (nth_indep _ d (g O)) by now rewrite length_map, length_seq.
  rewrite map_nth, seq_nth by assumption. reflexivity.
Qed.

Lemma linspace_length (a b : Q) (n : nat) : length (Np.linspace a b n) = n.
Proof.
  unfold Np.linspace, Np.set_last, Np.arange.
  destruct n as [|[|n]]; try reflexivity.
  replace (1 <? S (S n))%nat with true by (symmetry; apply Nat.ltb_lt; lia).
  set (y := map (fun v => v + a) _).
  assert (Hy : length y = S (S n)).
  { subst y. destruct (0 <? _)%Z; [destruct (Qeq_bool _ _)|];
      now rewrite !length_map, length_seq. }
  destruct y as [|v y]; [discriminate|].
  rewrite length_app. simpl length at 2.
  destruct (exists_last (l := v :: y)) as (y' & z & E); [discriminate|].
  rewrite E, removelast_last. rewrite E, length_app in Hy. simpl in Hy. lia.
Qed.

(** With one sample, the sample is [start]. *)
Lemma linspace_one (a b : Q) :
  exists v, Np.linspace a b 1 = [v] /\ v == a.
Proof.
  exists (inject_Z 0 * (b - a) + a). split; [reflexivity|]. ring.
Qed.

(** With two samples or more, they are evenly spaced from [start] to [stop],
    and the last one is [stop] itself. *)
Lemma linspace_nth (a b : Q) (n i : nat) :
  (2 <= n)%nat -> (i < n)%nat ->
  nth i (Np.linspace a b n) 0
  == a + inject_Z (Z.of_nat i) * ((b - a) / inject_Z (Z.of_nat n - 1)).
Proof.
  intros Hn Hi. destruct n as [|m]; [lia|].
  assert (Hdiv : ~ inject_Z (Z.of_nat (S m) - 1) == 0).
  { intros E. unfold Qeq in E. cbn [Qnum Qden inject_Z] in E. lia. }
  unfold Np.linspace, Np.set_last, Np.arange.
  replace (1 <? S m)%nat with true by (symmetry; apply Nat.ltb_lt; lia).
  replace (0 <? Z.of_nat (S m) - 1)%Z with true
    by (symmetry; apply Z.ltb_lt; lia).
  set (div := inject_Z (Z.of_nat (S m) - 1)) in *.
  set (f := if Qeq_bool ((b - a) / div) 0
            then fun v : Q => v / div * (b - a)
            else fun v : Q => v * ((b - a) / div)).
  assert (Hf : forall v, f v == v * ((b - a) / div)).
  { intros v. subst f. destruct (Qeq_bool _ _); [field; exact Hdiv|reflexivity]. }
  assert (E : map (fun v => v + a)
                (if Qeq_bool ((b - a) / div) 0
                 then map (fun v : Q => v / div * (b - a))
                        (map (fun i => inject_Z (Z.of_nat i)) (seq 0 (S m)))
                 else map (fun v : Q => v * ((b - a) / div))
                        (map (fun i => inject_Z (Z.of_nat i)) (seq 0 (S m))))
              = map (fun k => f (inject_Z (Z.of_nat k)) + a) (seq 0 m)
                ++ [f (inject_Z (Z.of_nat m)) + a]).
  { subst f. rewrite seq_S. simpl Nat.add.
    destruct (Qeq_bool _ _); rewrite !map_app, !map_map; reflexivity. }
  rewrite E. clear E.
  destruct (map _ (seq 0 m) ++ [_]) eqn:E'.
  { apply (f_equal (@length Q)) in E'. rewrite length_app in E'.
    simpl in E'. lia. }
  rewrite <- E', removelast_last.
  destruct (Nat.eq_dec i m) as [->|Hne].
  - rewrite app_nth2 by (rewrite length_map, length_seq; lia).
    rewrite length_map, length_seq, Nat.sub_diag. simpl nth.
    subst div. replace (Z.of_nat (S m) - 1)%Z with (Z.of_nat m) by lia.
    replace (Z.of_nat (S m) - 1)%Z with (Z.of_nat m) in Hdiv by lia.
    field. exact Hdiv.
  - rewrite app_nth1 by (rewrite length_map, length_seq; lia).
    rewrite nth_map_seq by lia. rewrite Hf. ring.
Qed.

Lemma linspace_first (a b : Q) (n : nat) :
  (2 <= n)%nat -> nth 0 (Np.linspace a b n) 0 == a.
Proof.
  intros Hn. rewrite linspace_nth by lia. simpl inject_Z at 1. field.
  intros E. unfold Qeq in E. cbn [Qnum Qden inject_Z] in E. lia.
Qed.

Lemma linspace_last (a b : Q) (n : nat) :
  (2 <= n)%nat -> last (Np.linspace a b n) 0 = b.
Proof.
  intros Hn. unfold Np.linspace, Np.set_last.
  replace (1 <? n)%nat with true by (symmetry; apply Nat.ltb_lt; lia).
  set (y := map (fun v => v + a) _).
  assert (Hy : length y = n).
  { subst y. unfold Np.arange. destruct (0 <? _)%Z; [destruct (Qeq_bool _ _)|];
      now rewrite !length_map, length_seq. }
  destruct y as [|v y]; [simpl in Hy; lia | apply last_last].
Qed.

(** ** The probability surface *)

Lemma combine_const {A B : Type} (xs : list A) (y : B) :
  combine xs (map (fun _ => y) xs) = map (fun x => (x, y)) xs.
Proof. induction xs as [|x xs IH]; simpl; congruence. Qed.

Lemma reshape_rows {A : Type} (g : point -> A) (xs ys : list Q) :
  Np.reshape (length ys) (length xs)
    (map g (Np.c_ (Np.ravel (map (fun _ => xs) ys))
                  (Np.ravel (map (fun y => map (fun _ => y) xs) ys))))
  = map (fun y => map (fun x => g (x, y)) xs) ys.
Proof.
  unfold Np.c_, Np.ravel. induction ys as [|y ys IH]; [reflexivity|].
  cbn [map concat length Np.reshape].
  rewrite combine_app_eq by now rewrite length_map.
  rewrite combine_const, map_app, map_map.
  assert (Hlen : length (map (fun x => g (x, y)) xs) = length xs)
    by apply length_map.
  f_equal.
  - rewrite <- Hlen at 1. rewrite firstn_app, firstn_all, Nat.sub_diag.
    simpl. apply app_nil_r.
  - rewrite skipn_app, skipn_all2 by (rewrite Hlen; lia).
    rewrite Hlen, Nat.sub_diag. simpl. exact IH.
Qed.

Section Iteration.

Context {R : NumpyRandom} {SK : Sklearn} {PLT : Pyplot} {SQ : RealSqrt}.

(** The surface is the class-1 probability at every pair of one of the 200
    abscissas and one of the 200 ordinates, row by row. *)
Lemma probability_grid_spec (model : LogisticRegression)
    (x_min x_max y_min y_max : Q) :
  let xs := Np.linspace x_min x_max 200 in
  let ys := Np.linspace y_min y_max 200 in
  probability_grid model x_min x_max y_min y_max =
  (map (fun _ => xs) ys,
   map (fun y => map (fun _ => y) xs) ys,
   map (fun y => map (fun x => snd (predict_proba_row model (x, y))) xs) ys).
Proof.
  intros xs ys. unfold probability_grid, Np.meshgrid, predict_proba.
  fold xs. fold ys. rewrite map_map.
  assert (Hs : Np.shape (map (fun _ : Q => xs) ys) = (length ys, length xs)).
  { unfold Np.shape. rewrite length_map.
    destruct ys eqn:E; [|reflexivity].
    apply (f_equal (@length Q)) in E. subst ys.
    rewrite linspace_length in E. discriminate. }
  rewrite Hs. simpl fst; simpl snd.
  now rewrite (reshape_rows (fun p => snd (predict_proba_row model p))).
Qed.

Lemma bounding_box_spec (X : list point) :
  X <> [] ->
  exists x_lo x_hi y_lo y_hi,
    bounding_box X = Ok (x_lo - 1, x_hi + 1, y_lo - 1, y_hi + 1) /\
    tight_box X x_lo x_hi y_lo y_hi.
Proof.
  intros HX.
  assert (H0 : Np.col0 X <> []) by (destruct X; [congruence|discriminate]).
  assert (H1 : Np.col1 X <> []) by (destruct X; [congruence|discriminate]).
  destruct (np_min_spec _ H0) as (x_lo & E1 & I1 & L1).
  destruct (np_max_spec _ H0) as (x_hi & E2 & I2 & L2).
  destruct (np_min_spec _ H1) as (y_lo & E3 & I3 & L3).
  destruct (np_max_spec _ H1) as (y_hi & E4 & I4 & L4).
  exists x_lo, x_hi, y_lo, y_hi. split.
  - unfold bounding_box. rewrite E1, E2, E3, E4. reflexivity.
  - unfold tight_box, Np.col0, Np.col1 in *.
    repeat split; auto; intros p Hp.
    + apply L1. now apply in_map.
    + apply L2. now apply in_map.
    + apply L3. now apply in_map.
    + apply L4. now apply in_map.
Qed.

(** The three turns of the confidence-band loop: only the first one, at
    level 0.7, touches [min_distance], [margin_widths] and the console. *)
Lemma confidence_bands_eq (distance : Q) (xx yy Z : list (list Q))
    (mw : list Np.float64) (out : list console_line) :
  let band level alpha :=
    {| band_level := level; band_alpha := alpha;
       band_class_1 := contourf xx yy Z [level; 1.0];
       band_class_0 := contourf xx yy Z [0.0; 1 - level] |} in
  let r :=
    margin_try (contourf xx yy Z [0.7; 1.0])
      (contourf xx yy Z [0.0; 1 - 0.7]) in
  confidence_bands distance xx yy Z mw out =
  {| min_distance := margin_value r;
     bs_margin_widths := mw ++ [margin_entry r];
     bs_stdout := out ++ margin_print distance r;
     bs_bands := [band 0.7 0.05; band 0.8 0.1; band 0.9 0.15] |}.
Proof.
  intros band r. unfold confidence_bands, contour_levels, alphas.
  cbn [combine fold_left]. unfold band_step at 3.
  change (Qeq_bool 0.7 0.7) with true. cbv iota. fold r.
  unfold band_step.
  change (Qeq_bool 0.8 0.7) with false.
  change (Qeq_bool 0.9 0.7) with false. cbv iota.
  destruct r as [[m|]|e]; cbn; rewrite ?app_nil_r; reflexivity.
Qed.

Lemma generate_points_length (Hshape : mvn_shape R) (d : Q) (n : nat) (c : Q)
    (s : rng_state) :
  length (fst (fst (generate_ellipsoid_clusters d n c s))) = (2 * n)%nat.
Proof.
  rewrite generate_unfold. cbv zeta. simpl fst.
  rewrite length_app, length_map, !Hshape. lia.
Qed.

(** One iteration returns, and this is what it leaves. *)
Lemma experiment_spec (Hshape : mvn_shape R) (n_rows n_cols : nat)
    (l : Locals) (w : World) (i : nat) (d : Q) :
  let D := fst (generate_ellipsoid_clusters d 100 0.5 (rng w)) in
  let X := fst D in
  let y := snd D in
  let model := fit X y in
  let beta0 := intercept_0 model in
  let beta1 := fst (coef_0 model) in
  let beta2 := snd (coef_0 model) in
  let slope := Np.true_divide (- beta1) beta2 in
  let intercept := Np.true_divide (- beta0) beta2 in
  exists x_lo x_hi y_lo y_hi,
    tight_box X x_lo x_hi y_lo y_hi /\
    let x_min := x_lo - 1 in
    let x_max := x_hi + 1 in
    let y_min := y_lo - 1 in
    let y_max := y_hi + 1 in
    let G := probability_grid model x_min x_max y_min y_max in
    let xx := fst (fst G) in
    let yy := snd (fst G) in
    let Z := snd G in
    let st := confidence_bands d xx yy Z (margin_widths l) (stdout w) in
    experiment n_rows n_cols (l, w) (i, d) =
    Ok ({| shift_distances := shift_distances l;
           beta0_list := beta0_list l ++ [beta0];
           beta1_list := beta1_list l ++ [beta1];
           beta2_list := beta2_list l ++ [beta2];
           slope_list := slope_list l ++ [slope];
           intercept_list := intercept_list l ++ [intercept];
           loss_list := loss_list l ++ [log_loss y (predict_proba model X)];
           margin_widths := bs_margin_widths st;
           sample_data :=
             dict_set Qeq_bool d
               (X, y, model, beta0, beta1, beta2, min_distance st)
               (sample_data l);
           axes := axes l ++
             [ {| panel_subplot := (n_rows, n_cols, i);
                  panel_scatter := (X, y);
                  panel_xlim := (x_min, x_max);
                  panel_ylim := (y_min, y_max);
                  panel_boundary := contour xx yy Z [0.5];
                  panel_bands := bs_bands st;
                  panel_title :=
                    ("Shift Distance = " ++ Fmt.fixed2 d)%string;
                  panel_equation :=
                    (x_min + 0.1, y_max - 1.0,
                     equation_text beta0 beta1 beta2 slope intercept);
                  panel_margin :=
                    (x_min + 0.1, y_max - 1.5,
                     margin_text (min_distance st));
                  panel_legend := (i =? 1)%nat |} ] |},
        {| rng := snd (generate_ellipsoid_clusters d 100 0.5 (rng w));
           stdout := bs_stdout st;
           files := files w |}).
Proof.
  intros D X y model beta0 beta1 beta2 slope intercept.
  assert (HX : X <> []).
  { intros E. apply (f_equal (@length point)) in E. subst X D.
    rewrite generate_points_length in E by assumption. discriminate. }
  destruct (bounding_box_spec X HX) as (x_lo & x_hi & y_lo & y_hi & Ebox & Hbox).
  exists x_lo, x_hi, y_lo, y_hi. split; [exact Hbox|].
  intros x_min x_max y_min y_max G xx yy Z st.
  unfold experiment, fit_logistic_regression.
  subst st Z yy xx G intercept slope beta2 beta1 beta0 model y X D.
  destruct (generate_ellipsoid_clusters d 100 0.5 (rng w)) as [[X y] s].
  cbn [fst snd] in *.
  destruct (coef_0 (fit X y)) as [b1 b2] eqn:Ecoef. cbn [fst snd].
  rewrite Ebox. cbn [bind]. fold x_min x_max y_min y_max.
  destruct (probability_grid (fit X y) x_min x_max y_min y_max)
    as [[xx yy] Z].
  reflexivity.
Qed.

End Iteration.

(** ** The sweep *)

Section Sweep.

Context {R : NumpyRandom} {SK : Sklearn} {PLT : Pyplot} {SQ : RealSqrt}.

Lemma generate_any_state (d : Q) (s : rng_state) :
  fst (generate_ellipsoid_clusters d 100 0.5 s) = dataset d.
Proof. unfold dataset. now rewrite !generate_unfold. Qed.

Lemma sweep_spec (Hshape : mvn_shape R) (n_rows n_cols : nat)
    (ids : list (nat * Q)) :
  forall (l : Locals) (w : World),
  exists l' w',
    sweep n_rows n_cols ids (l, w) = Ok (l', w') /\
    sweep_adds n_rows n_cols ids l l' w w'.
Proof.
  induction ids as [|[i d] ids IH]; intros l w.
  - exists l, w. split; [reflexivity|].
    constructor; cbn [map length]; rewrite ?app_nil_r; auto.
  - destruct (experiment_spec Hshape n_rows n_cols l w i d)
      as (x_lo & x_hi & y_lo & y_hi & _ & E).
    cbv zeta in E. rewrite generate_any_state in E.
    cbn [sweep]. rewrite E. cbn [bind].
    match goal with |- context [sweep _ _ _ (?l1, ?w1)] =>
      destruct (IH l1 w1) as (l' & w' & E' & H') end.
    exists l', w'. split; [exact E'|].
    destruct H' as [Hd H0 H1 H2 Hs Hi Hl Hm Ht Hp Hf].
    cbn [shift_distances beta0_list beta1_list beta2_list slope_list
         intercept_list loss_list margin_widths axes files] in *.
    constructor; cbn [map snd fst length]; auto.
    + rewrite H0, <- app_assoc. reflexivity.
    + rewrite H1, <- app_assoc. reflexivity.
    + rewrite H2, <- app_assoc. reflexivity.
    + rewrite Hs, <- app_assoc. reflexivity.
    + rewrite Hi, <- app_assoc. reflexivity.
    + rewrite Hl, <- app_assoc. reflexivity.
    + rewrite Hm, confidence_bands_eq. cbv zeta.
      cbn [bs_margin_widths]. rewrite length_app. cbn [length]. lia.
    + rewrite Ht, map_app, <- app_assoc. reflexivity.
    + rewrite Hp, map_app, <- app_assoc. reflexivity.
Qed.

End Sweep.

Lemma enumerate_snd {A : Type} (l : list A) (start : nat) :
  map snd (enumerate l start) = l.
Proof.
  unfold enumerate. revert start.
  induction l as [|x l IH]; intros start; simpl; [reflexivity|].
  now rewrite IH.
Qed.

Lemma enumerate_fst {A : Type} (l : list A) (start : nat) :
  map fst (enumerate l start) = seq start (length l).
Proof.
  unfold enumerate. revert start.
  induction l as [|x l IH]; intros start; simpl; [reflexivity|].
  now rewrite IH.
Qed.

Lemma enumerate_length {A : Type} (l : list A) (start : nat) :
  length (enumerate l start) = length l.
Proof.
  unfold enumerate. rewrite length_combine, length_seq. apply Nat.min_id.
Qed.

Lemma dict_get_set {K V : Type} (eqb : K -> K -> bool) (k : K) (v : V)
    (d : list (K * V)) :
  eqb k k = true -> dict_get eqb k (dict_set eqb k v d) = Some v.
Proof.
  intros Hrefl. induction d as [|[k' v'] d IH]; simpl.
  - now rewrite Hrefl.
  - destruct (eqb k' k) eqn:E; simpl; now rewrite E.
Qed.

Section Driver.

Context {R : NumpyRandom} {SK : Sklearn} {PLT : Pyplot} {SQ : RealSqrt}.

(** [do_experiments] returns; its lists hold one entry per distance of the
    [linspace], in order, and the two figures are saved last. *)
Lemma do_experiments_spec (Hshape : mvn_shape R) (start end_ : Q)
    (step_num : nat) (w : World) :
  let ds := Np.linspace start end_ step_num in
  let n_rows := ((step_num + 2 - 1) / 2)%nat in
  exists (l' : Locals) (w1 : World),
    do_experiments start end_ step_num w =
      Ok (l',
          savefig trends_png (TrendFigure (18, 15) (plot_trends l'))
            (savefig dataset_png
               (PanelFigure (20, inject_Z (Z.of_nat n_rows) * 10) (axes l'))
               w1)) /\
    files w1 = files w /\
    shift_distances l' = ds /\
    beta0_list l' = map beta0_at ds /\
    beta1_list l' = map beta1_at ds /\
    beta2_list l' = map beta2_at ds /\
    slope_list l' =
      map (fun d => Np.true_divide (- beta1_at d) (beta2_at d)) ds /\
    intercept_list l' =
      map (fun d => Np.true_divide (- beta0_at d) (beta2_at d)) ds /\
    loss_list l' = map loss_at ds /\
    length (margin_widths l') = step_num /\
    map panel_title (axes l') =
      map (fun d => ("Shift Distance = " ++ Fmt.fixed2 d)%string) ds /\
    map panel_subplot (axes l') =
      map (fun i => (n_rows, 2%nat, i)) (seq 1 step_num).
Proof.
  intros ds n_rows. unfold do_experiments. fold ds. fold n_rows.
  match goal with |- context [sweep _ _ _ (?l0, _)] =>
    destruct (sweep_spec Hshape n_rows 2 (enumerate ds 1) l0 w)
      as (l' & w1 & E & [Hd H0 H1 H2 Hs Hi Hl Hm Ht Hp Hf]) end.
  exists l', w1. rewrite E. cbn [bind].
  cbn [shift_distances beta0_list beta1_list beta2_list slope_list
       intercept_list loss_list margin_widths axes files app map length
       Nat.add] in *.
  assert (Hsnd : forall (B : Type) (f : Q -> B),
            map (fun id : nat * Q => f (snd id)) (enumerate ds 1) = map f ds).
  { intros B f. rewrite <- (map_map snd f). now rewrite enumerate_snd. }
  assert (Hfst : forall (B : Type) (f : nat -> B),
            map (fun id : nat * Q => f (fst id)) (enumerate ds 1)
            = map f (seq 1 step_num)).
  { intros B f. rewrite <- (map_map fst f), enumerate_fst.
    subst ds. now rewrite linspace_length. }
  rewrite enumerate_length in Hm.
  rewrite (Hsnd _ beta0_at) in H0. rewrite (Hsnd _ beta1_at) in H1.
  rewrite (Hsnd _ beta2_at) in H2.
  rewrite (Hsnd _ (fun d => Np.true_divide (- beta1_at d) (beta2_at d))) in Hs.
  rewrite (Hsnd _ (fun d => Np.true_divide (- beta0_at d) (beta2_at d))) in Hi.
  rewrite (Hsnd _ loss_at) in Hl.
  rewrite (Hsnd _ (fun d => ("Shift Distance = " ++ Fmt.fixed2 d)%string)) in Ht.
  rewrite (Hfst _ (fun i => (n_rows, 2%nat, i))) in Hp.
  repeat split; auto.
  subst ds. now rewrite Hm, linspace_length.
Qed.

End Driver.

(** ** The sweep driver: distances, records and files *)

Lemma true_divide_finite (a b : Q) :
  ~ b == 0 -> Np.true_divide a b = Np.Finite (a / b).
Proof.
  intros Hb. unfold Np.true_divide.
  destruct (Qeq_bool b 0) eqn:E; [|reflexivity].
  apply Qeq_bool_eq in E. contradiction.
Qed.

Lemma reference_distances :
  Forall2 Qeq (Np.linspace 0.25 2.0 8)
    [0.25; 0.5; 0.75; 1.0; 1.25; 1.5; 1.75; 2.0].
Proof. vm_compute. repeat constructor. Qed.

Section DriverClaims.

Context {R : NumpyRandom} {SK : Sklearn} {PLT : Pyplot} {SQ : RealSqrt}.

(** C1 (amended). When a draw of [size] rows has [size] rows:
    - for [step_num >= 2], [do_experiments] returns after iterating over the
      [step_num] distances [start + i * (end - start) / (step_num - 1)],
      [i = 0 .. step_num - 1], the first equal to [start] and the last being
      [end]; each of the seven result lists gets one entry per distance, one
      panel is drawn per distance in order, and the files written are the two
      images, [results/dataset.png] and then
      [results/parameters_vs_shift_distance.png];
    - for [step_num = 1] the only distance is [start];
    - with [start = 0.25], [end = 2.0], [step_num = 8] the distances are
      0.25, 0.5, ..., 2.0, every list has 8 entries, and on an empty results
      directory exactly the two image files exist afterwards. *)
Theorem do_experiments_sweep (Hshape : mvn_shape R) :
  (forall (start end_ : Q) (step_num : nat) (w : World),
     (2 <= step_num)%nat ->
     exists l' w' fig1 fig2,
       do_experiments start end_ step_num w = Ok (l', w') /\
       shift_distances l' = Np.linspace start end_ step_num /\
       length (shift_distances l') = step_num /\
       (forall i, (i < step_num)%nat ->
          nth i (shift_distances l') 0 ==
          start + inject_Z (Z.of_nat i)
                  * ((end_ - start) / inject_Z (Z.of_nat step_num - 1))) /\
       nth 0 (shift_distances l') 0 == start /\
       last (shift_distances l') 0 = end_ /\
       length (beta0_list l') = step_num /\
       length (beta1_list l') = step_num /\
       length (beta2_list l') = step_num /\
       length (slope_list l') = step_num /\
       length (intercept_list l') = step_num /\
       length (loss_list l') = step_num /\
       length (margin_widths l') = step_num /\
       map panel_title (axes l') =
         map (fun d => ("Shift Distance = " ++ Fmt.fixed2 d)%string)
           (shift_distances l') /\
       files w' =
         dict_set String.eqb trends_png fig2
           (dict_set String.eqb dataset_png fig1 (files w))) /\
  (forall (start end_ : Q) (w : World),
     exists l' w' v,
       do_experiments start end_ 1 w = Ok (l', w') /\
       shift_distances l' = [v] /\ v == start) /\
  (forall w : World,
     files w = [] ->
     exists l' w',
       do_experiments 0.25 2.0 8 w = Ok (l', w') /\
       Forall2 Qeq (shift_distances l')
         [0.25; 0.5; 0.75; 1.0; 1.25; 1.5; 1.75; 2.0] /\
       length (beta0_list l') = 8%nat /\
       length (beta1_list l') = 8%nat /\
       length (beta2_list l') = 8%nat /\
       length (slope_list l') = 8%nat /\
       length (intercept_list l') = 8%nat /\
       length (loss_list l') = 8%nat /\
       length (margin_widths l') = 8%nat /\
       map fst (files w') = [dataset_png; trends_png]).
Proof.
  split; [|split].
  - intros start end_ step_num w Hn.
    destruct (do_experiments_spec Hshape start end_ step_num w)
      as (l' & w1 & E & Hf & Hd & H0 & H1 & H2 & Hs & Hi & Hl & Hm & Ht & _).
    eexists l', _, _, _. split; [exact E|].
    rewrite H0, H1, H2, Hs, Hi, Hl, Ht, Hd, !length_map, linspace_length.
    repeat split; auto.
    + intros i Hlt. now apply linspace_nth.
    + now apply linspace_first.
    + now apply linspace_last.
    + cbn [savefig files]. now rewrite Hf.
  - intros start end_ w.
    destruct (do_experiments_spec Hshape start end_ 1 w)
      as (l' & w1 & E & _ & Hd & _).
    destruct (linspace_one start end_) as (v & Ev & Hv).
    eexists l', _, v. split; [exact E|]. split; [congruence|exact Hv].
  - intros w Hw.
    destruct (do_experiments_spec Hshape 0.25 2.0 8 w)
      as (l' & w1 & E & Hf & Hd & H0 & H1 & H2 & Hs & Hi & Hl & Hm & _).
    eexists l', _. split; [exact E|].
    rewrite H0, H1, H2, Hs, Hi, Hl, Hd, !length_map, linspace_length.
    repeat split; auto.
    + exact reference_distances.
    + cbn [savefig files]. rewrite Hf, Hw. reflexivity.
Qed.

(** C6. When a draw of [size] rows has [size] rows and the sweep has at
    least one step: the five lists [do_experiments] collects for the weights,
    the slope and the intercept hold one entry per distance, and at every
    position where [beta2] is not zero the recorded slope is
    [-beta1 / beta2] and the recorded intercept is [-beta0 / beta2], both
    finite, and every point [(x, slope * x + intercept)] of that line
    satisfies [beta0 + beta1 * x + beta2 * (slope * x + intercept) = 0]. *)
Theorem boundary_consistency (Hshape : mvn_shape R) (start end_ : Q)
    (step_num : nat) (w : World) :
  (1 <= step_num)%nat ->
  exists l' w',
    do_experiments start end_ step_num w = Ok (l', w') /\
    length (beta0_list l') = step_num /\
    length (beta1_list l') = step_num /\
    length (beta2_list l') = step_num /\
    length (slope_list l') = step_num /\
    length (intercept_list l') = step_num /\
    forall (i : nat) (beta0 beta1 beta2 : Q),
      nth_error (beta0_list l') i = Some beta0 ->
      nth_error (beta1_list l') i = Some beta1 ->
      nth_error (beta2_list l') i = Some beta2 ->
      ~ beta2 == 0 ->
      exists slope intercept : Q,
        nth_error (slope_list l') i = Some (Np.Finite slope) /\
        nth_error (intercept_list l') i = Some (Np.Finite intercept) /\
        slope == - beta1 / beta2 /\
        intercept == - beta0 / beta2 /\
        forall x : Q, beta0 + beta1 * x + beta2 * (slope * x + intercept) == 0.
Proof.
  intros Hn.
  destruct (do_experiments_spec Hshape start end_ step_num w)
    as (l' & w1 & E & _ & _ & H0 & H1 & H2 & Hs & Hi & _).
  eexists l', _. split; [exact E|].
  split; [now rewrite H0, length_map, linspace_length|].
  split; [now rewrite H1, length_map, linspace_length|].
  split; [now rewrite H2, length_map, linspace_length|].
  split; [now rewrite Hs, length_map, linspace_length|].
  split; [now rewrite Hi, length_map, linspace_length|].
  intros i beta0 beta1 beta2 E0 E1 E2 Hnz.
  rewrite H0, nth_error_map in E0. rewrite H1, nth_error_map in E1.
  rewrite H2, nth_error_map in E2.
  rewrite Hs, Hi, !nth_error_map.
  destruct (nth_error (Np.linspace start end_ step_num) i) as [d|];
    [|discriminate].
  cbn [option_map] in *.
  injection E0 as ->. injection E1 as ->. injection E2 as ->.
  exists (- beta1 / beta2), (- beta0 / beta2).
  rewrite !true_divide_finite by assumption.
  split; [reflexivity|]. split; [reflexivity|].
  split; [reflexivity|]. split; [reflexivity|].
  intros x. field. exact Hnz.
Qed.

End DriverClaims.

Lemma do_experiments_sweep_witness :
  mvn_shape Toy.random /\
  exists l' w',
    Toy.run 0.25 2.0 8 Toy.world0 = Ok (l', w') /\
    Forall2 Qeq (shift_distances l')
      [0.25; 0.5; 0.75; 1.0; 1.25; 1.5; 1.75; 2.0] /\
    length (margin_widths l') = 8%nat /\
    map fst (files w') = [dataset_png; trends_png].
Proof.
  split; [exact toy_mvn_shape|].
  destruct (do_experiments_sweep (R := Toy.random) (SK := Toy.sklearn)
              (PLT := Toy.pyplot) (SQ := Toy.sqrt4) toy_mvn_shape)
    as (_ & _ & H).
  destruct (H Toy.world0 eq_refl)
    as (l' & w' & E & Hd & _ & _ & _ & _ & _ & _ & Hm & Hf).
  exists l', w'. repeat split; assumption.
Defined.

(** C1, as stated, fails for a single step: the sweep from 0.25 to 2 with
    [step_num = 1] runs over one distance, equal to 0.25, and never reaches
    the end point 2. *)
Lemma single_step_sweep_misses_end :
  exists l' w',
    Toy.run (1 # 4) 2 1 Toy.world0 = Ok (l', w') /\
    length (shift_distances l') = 1%nat /\
    (forall d, In d (shift_distances l') -> d == 1 # 4) /\
    ~ (exists d, In d (shift_distances l') /\ d == 2).
Proof.
  destruct (do_experiments_spec (R := Toy.random) (SK := Toy.sklearn)
              (PLT := Toy.pyplot) (SQ := Toy.sqrt4) toy_mvn_shape
              (1 # 4) 2 1 Toy.world0)
    as (l' & w1 & E & _ & Hd & _).
  eexists l', _. split; [exact E|]. rewrite Hd.
  split; [reflexivity|]. split.
  - intros d [<-|[]]. reflexivity.
  - intros (d & [<-|[]] & Hq). revert Hq. vm_compute. discriminate.
Qed.

Lemma boundary_consistency_witness :
  mvn_shape Toy.random /\
  (1 <= 8)%nat /\
  exists l' w',
    Toy.run 0.25 2.0 8 Toy.world0 = Ok (l', w') /\
    length (beta0_list l') = 8%nat /\
    length (beta1_list l') = 8%nat /\
    length (beta2_list l') = 8%nat /\
    length (slope_list l') = 8%nat /\
    length (intercept_list l') = 8%nat /\
    forall (i : nat) (beta0 beta1 beta2 : Q),
      nth_error (beta0_list l') i = Some beta0 ->
      nth_error (beta1_list l') i = Some beta1 ->
      nth_error (beta2_list l') i = Some beta2 ->
      ~ beta2 == 0 ->
      exists slope intercept : Q,
        nth_error (slope_list l') i = Some (Np.Finite slope) /\
        nth_error (intercept_list l') i = Some (Np.Finite intercept) /\
        slope == - beta1 / beta2 /\
        intercept == - beta0 / beta2 /\
        forall x : Q, beta0 + beta1 * x + beta2 * (slope * x + intercept) == 0.
Proof.
  split; [exact toy_mvn_shape|].
  assert (Hn : (1 <= 8)%nat) by (repeat constructor).
  split; [exact Hn|].
  exact (boundary_consistency (R := Toy.random) (SK := Toy.sklearn)
           (PLT := Toy.pyplot) (SQ := Toy.sqrt4) toy_mvn_shape
           0.25 2.0 8 Toy.world0 Hn).
Defined.

(** ** The slope subplot *)

Lemma combine_nil_r {A B : Type} (l : list A) : combine l (@nil B) = [].
Proof. now destruct l. Qed.

(** The plotted points are, in order, the pairs of a distance and
    [beta1 / (beta2 + epsilon)] at the positions where [beta2 + epsilon] is
    not zero. *)
Lemma slope_plot_spec (ds b1s b2s : list Q) :
  let epsilon := 1 # 100000000 in
  combine (fst (slope_plot ds b1s b2s)) (snd (slope_plot ds b1s b2s)) =
  map (fun t : Q * Q * Q =>
         (fst (fst t), Np.Finite (snd (fst t) / (snd t + epsilon))))
    (filter (fun t : Q * Q * Q => negb (Qeq_bool (snd t + epsilon) 0))
       (combine (combine ds b1s) b2s)).
Proof.
  intros epsilon. unfold slope_plot. fold epsilon. cbn [fst snd].
  unfold Np.finite_mask, Np.add_scalar.
  revert ds b2s. induction b1s as [|b1 b1s IH]; intros ds b2s.
  - rewrite combine_nil_r. destruct ds; reflexivity.
  - destruct b2s as [|b2 b2s].
    + rewrite combine_nil_r. destruct ds; reflexivity.
    + destruct ds as [|d ds]; [reflexivity|].
      cbn [map Np.divide Np.select combine filter fst snd].
      remember (Np.true_divide b1 (b2 + epsilon)) as q eqn:Hq.
      unfold Np.true_divide in Hq.
      destruct (Qeq_bool (b2 + epsilon) 0) eqn:E.
      * destruct (b1 ?= 0); subst q;
          cbn [Np.isnan Np.isinf negb andb]; apply IH.
      * subst q. cbn [Np.isnan Np.isinf negb andb combine map fst snd].
        f_equal. apply IH.
Qed.

Section SlopeClaim.

Context {R : NumpyRandom} {SK : Sklearn} {PLT : Pyplot} {SQ : RealSqrt}.

(** C8 (amended). When a draw of [size] rows has [size] rows and the sweep
    has at least one step: the trends figure saved by [do_experiments] has a
    slope subplot whose points are, in
    order, [(distance, beta1 / (beta2 + 1e-8))] for the distances at which
    [beta2 + 1e-8] is not zero: the ratio [beta1 / beta2] with the epsilon in
    the denominator and without the minus sign of the derived slope, the
    non-finite quotients left out. *)
Theorem slope_subplot (Hshape : mvn_shape R) (start end_ : Q)
    (step_num : nat) (w : World) :
  (1 <= step_num)%nat ->
  let epsilon := 1 # 100000000 in
  exists l' w' T,
    do_experiments start end_ step_num w = Ok (l', w') /\
    dict_get String.eqb trends_png (files w') = Some (TrendFigure (18, 15) T) /\
    combine (fst (trend_slope T)) (snd (trend_slope T)) =
      map (fun t : Q * Q * Q =>
             (fst (fst t), Np.Finite (snd (fst t) / (snd t + epsilon))))
        (filter (fun t : Q * Q * Q => negb (Qeq_bool (snd t + epsilon) 0))
           (combine (combine (shift_distances l') (beta1_list l'))
              (beta2_list l'))) /\
    beta1_list l' = map beta1_at (shift_distances l') /\
    beta2_list l' = map beta2_at (shift_distances l').
Proof.
  intros Hn epsilon.
  destruct (do_experiments_spec Hshape start end_ step_num w)
    as (l' & w1 & E & _ & Hd & _ & H1 & H2 & _).
  eexists l', _, (plot_trends l'). split; [exact E|]. split.
  - cbn [savefig files]. apply dict_get_set. apply String.eqb_refl.
  - split; [apply slope_plot_spec|]. now rewrite Hd.
Qed.

End SlopeClaim.

Lemma slope_subplot_witness :
  mvn_shape Toy.random /\
  (1 <= 8)%nat /\
  exists l' w' T,
    Toy.run 0.25 2.0 8 Toy.world0 = Ok (l', w') /\
    dict_get String.eqb trends_png (files w') = Some (TrendFigure (18, 15) T) /\
    combine (fst (trend_slope T)) (snd (trend_slope T)) =
      map (fun t : Q * Q * Q =>
             (fst (fst t),
              Np.Finite (snd (fst t) / (snd t + (1 # 100000000)))))
        (filter
           (fun t : Q * Q * Q =>
              negb (Qeq_bool (snd t + (1 # 100000000)) 0))
           (combine (combine (shift_distances l') (beta1_list l'))
              (beta2_list l'))) /\
    beta1_list l' =
      map (beta1_at (R := Toy.random) (SK := Toy.sklearn))
        (shift_distances l') /\
    beta2_list l' =
      map (beta2_at (R := Toy.random) (SK := Toy.sklearn))
        (shift_distances l').
Proof.
  split; [exact toy_mvn_shape|].
  assert (Hn : (1 <= 8)%nat) by (repeat constructor).
  split; [exact Hn|].
  exact (slope_subplot (R := Toy.random) (SK := Toy.sklearn)
           (PLT := Toy.pyplot) (SQ := Toy.sqrt4) toy_mvn_shape
           0.25 2.0 8 Toy.world0 Hn).
Defined.

(** C8, as stated, fails: with [beta1 = beta2 = 1] at distance 0.25 the
    subplot shows the positive ratio [1 / (1 + 1e-8)], where the derived
    slope with the epsilon is the negative [-1 / (1 + 1e-8)]. *)
Lemma slope_subplot_sign :
  exists v v' : Q,
    slope_plot [1 # 4] [1] [1] = ([1 # 4], [Np.Finite v]) /\
    spec_slope_plot [1 # 4] [1] [1] = ([1 # 4], [Np.Finite v']) /\
    0 < v /\ v' < 0 /\ ~ v == v'.
Proof.
  exists (1 / (1 + (1 # 100000000))), (- (1) / (1 + (1 # 100000000))).
  split; [reflexivity|]. split; [reflexivity|].
  split; [reflexivity|]. split; [reflexivity|].
  vm_compute. discriminate.
Qed.

(** ** The margin width at the 0.7 level *)

Section Margin.

Context {PLT : Pyplot} {SQ : RealSqrt}.

Lemma in_cdist (A B : list point) (v : Q) :
  In v (Np.ravel (cdist A B)) <->
  exists a b, In a A /\ In b B /\ v = euclidean a b.
Proof.
  unfold Np.ravel, cdist. rewrite in_concat. split.
  - intros (row & Hrow & Hv). apply in_map_iff in Hrow as (a & <- & Ha).
    apply in_map_iff in Hv as (b & <- & Hb). now exists a, b.
  - intros (a & b & Ha & Hb & ->).
    exists (map (fun b' => euclidean a b') B). split.
    + apply in_map_iff. now exists a.
    + apply in_map_iff. now exists b.
Qed.

(** [np.min(cdist(A, B))] is the least distance between a point of [A] and a
    point of [B], and it exists as soon as both have a point. *)
Lemma min_cdist_spec (A B : list point) (m : Q) :
  Np.min (Np.ravel (cdist A B)) = Ok m ->
  (exists a b, In a A /\ In b B /\ m = euclidean a b) /\
  (forall a b, In a A -> In b B -> m <= euclidean a b).
Proof.
  intros E. apply np_min_ok_inv in E as (_ & Hin & Hle). split.
  - now apply in_cdist.
  - intros a b Ha Hb. apply Hle. apply in_cdist. now exists a, b.
Qed.

Lemma min_cdist_ok (A B : list point) :
  A <> [] -> B <> [] -> exists m, Np.min (Np.ravel (cdist A B)) = Ok m.
Proof.
  intros HA HB. destruct A as [|a A]; [congruence|].
  destruct B as [|b B]; [congruence|].
  destruct (np_min_spec (Np.ravel (cdist (a :: A) (b :: B)))) as (m & E & _).
  - discriminate.
  - now exists m.
Qed.

Lemma min_cdist_raise (A B : list point) :
  A = [] \/ B = [] -> exists e, Np.min (Np.ravel (cdist A B)) = Raise e.
Proof.
  intros H.
  assert (E : Np.ravel (cdist A B) = []).
  { destruct H as [-> | ->]; [reflexivity|].
    unfold Np.ravel, cdist. induction A; simpl; auto. }
  rewrite E. eexists. reflexivity.
Qed.

(** The four ways out of the [try]. *)
Lemma margin_try_cases (class_1 class_0 : ContourSet) :
  (forall e, get_paths class_1 = Raise e ->
     margin_try class_1 class_0 = Raise e) /\
  (forall p1 e, get_paths class_1 = Ok p1 -> get_paths class_0 = Raise e ->
     margin_try class_1 class_0 = Raise e) /\
  (forall p1 p0, get_paths class_1 = Ok p1 -> get_paths class_0 = Ok p0 ->
     p1 = [] \/ p0 = [] -> margin_try class_1 class_0 = Ok None) /\
  (forall p1 p0, get_paths class_1 = Ok p1 -> get_paths class_0 = Ok p0 ->
     p1 <> [] -> p0 <> [] ->
     margin_try class_1 class_0 =
       (m <- Np.min (Np.ravel (cdist (concat p1) (concat p0))) ;; Ok (Some m))).
Proof.
  unfold margin_try. repeat split.
  - intros e ->. reflexivity.
  - intros p1 e -> ->. reflexivity.
  - intros p1 p0 -> -> [-> | ->]; cbn [bind]; [reflexivity|].
    now destruct p1.
  - intros p1 p0 -> -> H1 H0. cbn [bind].
    destruct p1; [congruence|]. destruct p0; [congruence|]. reflexivity.
Qed.

(** A margin width is recorded only as a least vertex distance. *)
Lemma margin_try_some (class_1 class_0 : ContourSet) (m : Q) :
  margin_try class_1 class_0 = Ok (Some m) ->
  exists p1 p0,
    get_paths class_1 = Ok p1 /\ get_paths class_0 = Ok p0 /\
    p1 <> [] /\ p0 <> [] /\
    Np.min (Np.ravel (cdist (concat p1) (concat p0))) = Ok m.
Proof.
  unfold margin_try.
  destruct (get_paths class_1) as [p1|e]; [|discriminate].
  destruct (get_paths class_0) as [p0|e]; [|discriminate].
  cbn [bind]. destruct p1 as [|a p1]; [discriminate|].
  destruct p0 as [|b p0]; [discriminate|].
  destruct (Np.min _) as [m'|e] eqn:E; [|discriminate].
  cbn [bind]. intros [= ->]. exists (a :: p1), (b :: p0).
  repeat split; try discriminate. exact E.
Qed.

End Margin.

(** ** The margin caption *)

Lemma string_of_uint_head (u : uint) :
  exists c s, NilZero.string_of_uint u = String c s /\ c <> "N"%char.
Proof.
  destruct u; cbn; eexists _, _; (split; [reflexivity|discriminate]).
Qed.

(** A formatted number never reads [N/A]. *)
Lemma fixed2_not_NA (q : Q) : Fmt.fixed2 q <> "N/A"%string.
Proof.
  unfold Fmt.fixed2.
  destruct (Qnum q <? 0)%Z; cbn [String.append]; [discriminate|].
  destruct (string_of_uint_head
              (N.to_uint (Z.to_N (Z.abs (Fmt.round_half_even (q * 100)) / 100))))
    as (c & s & -> & Hc).
  cbn [String.append]. intros [= E _]. contradiction.
Qed.

Lemma margin_text_NA (md : option Q) :
  margin_text md = "Margin Width: N/A"%string <->
  md = None \/ exists m, md = Some m /\ m == 0.
Proof.
  unfold margin_text, truthy. destruct md as [m|].
  - destruct (Qeq_bool m 0) eqn:E; cbn [negb]; split.
    + intros _. right. exists m. split; [reflexivity|].
      now apply Qeq_bool_eq.
    + reflexivity.
    + cbn [String.append]. intros [= H]. now apply fixed2_not_NA in H.
    + intros [H|(m' & [= <-] & H)]; [discriminate|].
      apply Qeq_bool_neq in E. contradiction.
  - split; [now left|reflexivity].
Qed.

Section IterationMargin.

Context {R : NumpyRandom} {SK : Sklearn} {PLT : Pyplot} {SQ : RealSqrt}.

(** One iteration, seen from the margin width: the surface, the two regions
    of the 0.7 level, and where the outcome of the [try] goes. *)
Lemma experiment_margin (Hshape : mvn_shape R) (n_rows n_cols : nat)
    (l : Locals) (w : World) (i : nat) (d : Q) :
  exists l' w' x_lo x_hi y_lo y_hi panel,
    experiment n_rows n_cols (l, w) (i, d) = Ok (l', w') /\
    tight_box (fst (dataset d)) x_lo x_hi y_lo y_hi /\
    let xs := Np.linspace (x_lo - 1) (x_hi + 1) 200 in
    let ys := Np.linspace (y_lo - 1) (y_hi + 1) 200 in
    let xx := map (fun _ : Q => xs) ys in
    let yy := map (fun y => map (fun _ : Q => y) xs) ys in
    let Z :=
      map (fun y =>
             map (fun x => snd (predict_proba_row (fitted d) (x, y))) xs) ys in
    let class_1 := contourf xx yy Z [0.7; 1.0] in
    let class_0 := contourf xx yy Z [0.0; 0.3] in
    let r := margin_try class_1 class_0 in
    margin_widths l' = margin_widths l ++ [margin_entry r] /\
    stdout w' = stdout w ++ margin_print d r /\
    axes l' = axes l ++ [panel] /\
    panel_bands panel =
      [ {| band_level := 0.7; band_alpha := 0.05;
           band_class_1 := class_1; band_class_0 := class_0 |};
        {| band_level := 0.8; band_alpha := 0.1;
           band_class_1 := contourf xx yy Z [0.8; 1.0];
           band_class_0 := contourf xx yy Z [0.0; 1 - 0.8] |};
        {| band_level := 0.9; band_alpha := 0.15;
           band_class_1 := contourf xx yy Z [0.9; 1.0];
           band_class_0 := contourf xx yy Z [0.0; 1 - 0.9] |} ] /\
    snd (panel_margin panel) = margin_text (margin_value r) /\
    dict_get Qeq_bool d (sample_data l') =
      Some (fst (dataset d), snd (dataset d), fitted d,
            beta0_at d, beta1_at d, beta2_at d, margin_value r).
Proof.
  destruct (experiment_spec Hshape n_rows n_cols l w i d)
    as (x_lo & x_hi & y_lo & y_hi & Hbox & E).
  cbv zeta in E. rewrite generate_any_state in E, Hbox.
  rewrite probability_grid_spec in E. cbv zeta in E. cbn [fst snd] in E.
  rewrite confidence_bands_eq in E. cbv zeta in E.
  cbn [min_distance bs_margin_widths bs_stdout bs_bands] in E.
  eexists _, _, x_lo, x_hi, y_lo, y_hi, _. split; [exact E|].
  split; [exact Hbox|]. cbv zeta.
  cbn [margin_widths stdout axes sample_data panel_bands panel_margin snd].
  repeat split. apply dict_get_set. apply Qeq_bool_refl.
Qed.

End IterationMargin.

Section MarginClaims.

Context {R : NumpyRandom} {SK : Sklearn} {PLT : Pyplot} {SQ : RealSqrt}.

(** C2. When a draw of [size] rows has [size] rows: every iteration of the
    sweep returns and appends one margin entry, decided at the 0.7 level
    alone.  The probability surface is the class-1 probability on 200 by 200
    grid points, evenly spaced from the least to the greatest coordinate of
    the data, one unit further out on each side.  The class-1 region is
    [contourf] between the levels 0.7 and 1 and the class-0 region between 0
    and 0.3.  A finite entry is the least Euclidean distance between a vertex
    of a class-1 path and a vertex of a class-0 path, and such an entry is
    recorded whenever both regions have a vertex. *)
Theorem margin_width_geometry (Hshape : mvn_shape R) (n_rows n_cols : nat)
    (l : Locals) (w : World) (i : nat) (d : Q) :
  exists l' w' x_lo x_hi y_lo y_hi entry,
    experiment n_rows n_cols (l, w) (i, d) = Ok (l', w') /\
    tight_box (fst (dataset d)) x_lo x_hi y_lo y_hi /\
    let xs := Np.linspace (x_lo - 1) (x_hi + 1) 200 in
    let ys := Np.linspace (y_lo - 1) (y_hi + 1) 200 in
    let xx := map (fun _ : Q => xs) ys in
    let yy := map (fun y => map (fun _ : Q => y) xs) ys in
    let Z :=
      map (fun y =>
             map (fun x => snd (predict_proba_row (fitted d) (x, y))) xs) ys in
    let class_1 := contourf xx yy Z [0.7; 1.0] in
    let class_0 := contourf xx yy Z [0.0; 0.3] in
    length xs = 200%nat /\ length ys = 200%nat /\
    (forall j, (j < 200)%nat ->
       nth j xs 0 ==
       (x_lo - 1) + inject_Z (Z.of_nat j) * (((x_hi + 1) - (x_lo - 1)) / 199)) /\
    (forall j, (j < 200)%nat ->
       nth j ys 0 ==
       (y_lo - 1) + inject_Z (Z.of_nat j) * (((y_hi + 1) - (y_lo - 1)) / 199)) /\
    last xs 0 = x_hi + 1 /\ last ys 0 = y_hi + 1 /\
    margin_widths l' = margin_widths l ++ [entry] /\
    (forall m, entry = Np.Finite m ->
       exists p1 p0,
         get_paths class_1 = Ok p1 /\ get_paths class_0 = Ok p0 /\
         (exists v1 v0,
            In v1 (concat p1) /\ In v0 (concat p0) /\ m = euclidean v1 v0) /\
         (forall v1 v0,
            In v1 (concat p1) -> In v0 (concat p0) -> m <= euclidean v1 v0)) /\
    (forall p1 p0,
       get_paths class_1 = Ok p1 -> get_paths class_0 = Ok p0 ->
       concat p1 <> [] -> concat p0 <> [] ->
       exists m, entry = Np.Finite m).
Proof.
  destruct (experiment_margin Hshape n_rows n_cols l w i d)
    as (l' & w' & x_lo & x_hi & y_lo & y_hi & panel & E & Hbox & H).
  cbv zeta in H. destruct H as (Hm & _).
  eexists l', w', x_lo, x_hi, y_lo, y_hi, _.
  split; [exact E|]. split; [exact Hbox|]. cbv zeta.
  split; [apply linspace_length|]. split; [apply linspace_length|].
  split; [intros j Hj; exact (linspace_nth _ _ 200 j ltac:(lia) Hj)|].
  split; [intros j Hj; exact (linspace_nth _ _ 200 j ltac:(lia) Hj)|].
  split; [apply linspace_last; lia|]. split; [apply linspace_last; lia|].
  split; [exact Hm|]. split.
  - intros m Hentry. unfold margin_entry in Hentry.
    match type of Hentry with
    | match ?r with _ => _ end = _ => destruct r as [[m'|]|e] eqn:Er
    end; try discriminate.
    injection Hentry as ->.
    apply margin_try_some in Er as (p1 & p0 & E1 & E0 & _ & _ & Emin).
    exists p1, p0. split; [exact E1|]. split; [exact E0|].
    now apply min_cdist_spec.
  - intros p1 p0 E1 E0 H1 H0.
    assert (N1 : p1 <> []) by (intros ->; now apply H1).
    assert (N0 : p0 <> []) by (intros ->; now apply H0).
    match goal with |- context [margin_try ?c1 ?c0] =>
      destruct (margin_try_cases c1 c0) as (_ & _ & _ & Hok) end.
    rewrite (Hok p1 p0 E1 E0 N1 N0).
    destruct (min_cdist_ok (concat p1) (concat p0) H1 H0) as (m & ->).
    exists m. reflexivity.
Qed.

End MarginClaims.

Section FailureClaims.

Context {R : NumpyRandom} {SK : Sklearn} {PLT : Pyplot} {SQ : RealSqrt}.

(** C7 (amended). When a draw of [size] rows has [size] rows: an iteration
    always returns, whatever happens to the margin width, and the sweep goes
    on to the remaining distances.  With [class_1] and [class_0] the two
    regions drawn at the 0.7 level:
    - when extracting the paths of either raises, the entry recorded is
      [nan] and one line naming the distance and the exception is printed;
    - when either region has an empty path list, the entry recorded is [nan]
      and nothing is printed;
    - when both path lists are non-empty but one has no vertex, taking the
      minimum raises: the entry is [nan] and one line is printed;
    - otherwise a finite entry is recorded and nothing is printed. *)
Theorem margin_failure_handling (Hshape : mvn_shape R) (n_rows n_cols : nat)
    (l : Locals) (w : World) (i : nat) (d : Q) :
  exists l' w' panel band rest,
    experiment n_rows n_cols (l, w) (i, d) = Ok (l', w') /\
    axes l' = axes l ++ [panel] /\
    panel_bands panel = band :: rest /\
    band_level band = 0.7 /\
    let class_1 := band_class_1 band in
    let class_0 := band_class_0 band in
    (forall e,
       get_paths class_1 = Raise e \/
       (exists p1, get_paths class_1 = Ok p1 /\ get_paths class_0 = Raise e) ->
       margin_widths l' = margin_widths l ++ [Np.NaN] /\
       stdout w' = stdout w ++ [MarginError d e]) /\
    (forall p1 p0,
       get_paths class_1 = Ok p1 -> get_paths class_0 = Ok p0 ->
       p1 = [] \/ p0 = [] ->
       margin_widths l' = margin_widths l ++ [Np.NaN] /\
       stdout w' = stdout w) /\
    (forall p1 p0,
       get_paths class_1 = Ok p1 -> get_paths class_0 = Ok p0 ->
       p1 <> [] -> p0 <> [] -> concat p1 = [] \/ concat p0 = [] ->
       margin_widths l' = margin_widths l ++ [Np.NaN] /\
       exists e, stdout w' = stdout w ++ [MarginError d e]) /\
    (forall p1 p0,
       get_paths class_1 = Ok p1 -> get_paths class_0 = Ok p0 ->
       concat p1 <> [] -> concat p0 <> [] ->
       (exists m, margin_widths l' = margin_widths l ++ [Np.Finite m]) /\
       stdout w' = stdout w) /\
    (forall ids,
       exists l'' w'',
         sweep n_rows n_cols ((i, d) :: ids) (l, w) = Ok (l'', w'') /\
         length (margin_widths l'') =
           (length (margin_widths l) + 1 + length ids)%nat).
Proof.
  destruct (experiment_margin Hshape n_rows n_cols l w i d)
    as (l' & w' & x_lo & x_hi & y_lo & y_hi & panel & E & _ & H).
  cbv zeta in H. destruct H as (Hm & Hout & Hax & Hbands & _).
  eexists l', w', panel, _, _.
  split; [exact E|]. split; [exact Hax|]. split; [exact Hbands|].
  split; [reflexivity|]. cbv zeta. cbn [band_class_1 band_class_0].
  match type of Hm with context [margin_try ?c1 ?c0] =>
    destruct (margin_try_cases c1 c0) as (C1 & C2 & C3 & C4) end.
  rewrite Hm, Hout.
  split; [|split; [|split; [|split]]].
  - intros e [H|(p1 & H1 & H0)];
      [rewrite (C1 _ H) | rewrite (C2 _ _ H1 H0)]; split; reflexivity.
  - intros p1 p0 H1 H0 Hempty. rewrite (C3 _ _ H1 H0 Hempty).
    split; [reflexivity|]. cbn. now rewrite app_nil_r.
  - intros p1 p0 H1 H0 N1 N0 Hempty. rewrite (C4 _ _ H1 H0 N1 N0).
    destruct (min_cdist_raise (concat p1) (concat p0) Hempty) as (e & ->).
    split; [reflexivity|]. exists e. reflexivity.
  - intros p1 p0 H1 H0 V1 V0.
    assert (N1 : p1 <> []) by (intros ->; now apply V1).
    assert (N0 : p0 <> []) by (intros ->; now apply V0).
    rewrite (C4 _ _ H1 H0 N1 N0).
    destruct (min_cdist_ok (concat p1) (concat p0) V1 V0) as (m & ->).
    split; [exists m; reflexivity|]. cbn. now rewrite app_nil_r.
  - intros ids.
    destruct (sweep_spec Hshape n_rows n_cols ((i, d) :: ids) l w)
      as (l'' & w'' & E' & [_ _ _ _ _ _ _ Hlen _ _ _]).
    exists l'', w''. split; [exact E'|]. rewrite Hlen. cbn [length]. lia.
Qed.

(** C10. When a draw of [size] rows has [size] rows: in the panel an
    iteration draws, the margin caption is made from the [min_distance] the
    iteration ends with (the value it also stores in [sample_data] under the
    distance).  The caption reads [Margin Width: N/A] exactly when that value
    is [None] or a zero; a computed value, zero included, is the entry
    appended to [margin_widths]. *)
Theorem margin_caption (Hshape : mvn_shape R) (n_rows n_cols : nat)
    (l : Locals) (w : World) (i : nat) (d : Q) :
  exists l' w' panel (md : option Q),
    experiment n_rows n_cols (l, w) (i, d) = Ok (l', w') /\
    axes l' = axes l ++ [panel] /\
    dict_get Qeq_bool d (sample_data l') =
      Some (fst (dataset d), snd (dataset d), fitted d,
            beta0_at d, beta1_at d, beta2_at d, md) /\
    snd (panel_margin panel) = margin_text md /\
    (snd (panel_margin panel) = "Margin Width: N/A"%string <->
     md = None \/ exists m, md = Some m /\ m == 0) /\
    (forall m, md = Some m ->
       margin_widths l' = margin_widths l ++ [Np.Finite m]) /\
    (md = None -> margin_widths l' = margin_widths l ++ [Np.NaN]) /\
    (forall m, md = Some m -> m == 0 ->
       snd (panel_margin panel) = "Margin Width: N/A"%string /\
       margin_widths l' = margin_widths l ++ [Np.Finite m]).
Proof.
  destruct (experiment_margin Hshape n_rows n_cols l w i d)
    as (l' & w' & x_lo & x_hi & y_lo & y_hi & panel & E & _ & H).
  cbv zeta in H. destruct H as (Hm & _ & Hax & _ & Htext & Hdict).
  match type of Hm with context [margin_try ?c1 ?c0] =>
    set (r := margin_try c1 c0) in * end.
  exists l', w', panel, (margin_value r).
  split; [exact E|]. split; [exact Hax|]. split; [exact Hdict|].
  split; [exact Htext|]. rewrite Htext, Hm.
  split; [apply margin_text_NA|].
  assert (Hsome : forall m, margin_value r = Some m ->
                    margin_entry r = Np.Finite m).
  { intros m. destruct r as [[m'|]|e]; cbn; congruence. }
  split; [intros m Hmd; now rewrite (Hsome m Hmd)|]. split.
  - destruct r as [[m'|]|e]; cbn; congruence.
  - intros m Hmd Hz. split.
    + apply margin_text_NA. right. exists m. split; assumption.
    + now rewrite (Hsome m Hmd).
Qed.

End FailureClaims.

Lemma margin_width_geometry_witness :
  mvn_shape Toy.random /\
  exists l' w' entry,
    experiment (SQ := Toy.sqrt4) 1 2 (Toy.locals0, Toy.world0) (1%nat, 1 # 4)
      = Ok (l', w') /\
    margin_widths l' = [entry].
Proof.
  split; [exact toy_mvn_shape|].
  destruct (margin_width_geometry (R := Toy.random) (SK := Toy.sklearn)
              (PLT := Toy.pyplot) (SQ := Toy.sqrt4) toy_mvn_shape
              1 2 Toy.locals0 Toy.world0 1 (1 # 4))
    as (l' & w' & x_lo & x_hi & y_lo & y_hi & entry & E & _ & H).
  exists l', w', entry. split; [exact E|].
  exact (proj1 (proj2 (proj2 (proj2 (proj2 (proj2 (proj2 H))))))).
Defined.

Lemma margin_failure_handling_witness :
  mvn_shape Toy.random /\
  exists l' w' panel,
    experiment (SQ := Toy.sqrt4) 1 2 (Toy.locals0, Toy.world0) (1%nat, 1 # 4)
      = Ok (l', w') /\
    axes l' = [panel] /\
    exists l'' w'',
      sweep (SQ := Toy.sqrt4) 1 2 [(1%nat, 1 # 4); (2%nat, 1 # 2)]
        (Toy.locals0, Toy.world0) = Ok (l'', w'') /\
      length (margin_widths l'') = 2%nat.
Proof.
  split; [exact toy_mvn_shape|].
  destruct (margin_failure_handling (R := Toy.random) (SK := Toy.sklearn)
              (PLT := Toy.pyplot) (SQ := Toy.sqrt4) toy_mvn_shape
              1 2 Toy.locals0 Toy.world0 1 (1 # 4))
    as (l' & w' & panel & band & rest & E & Hax & _ & _ & H).
  exists l', w', panel. split; [exact E|]. split; [exact Hax|].
  exact (proj2 (proj2 (proj2 (proj2 H))) [(2%nat, 1 # 2)]).
Defined.

(** C7, as stated, fails where a region has no path: on a contouring that
    finds no geometry the iteration records [nan] and prints nothing. *)
Lemma empty_region_prints_nothing :
  (forall cs : ContourSet (Pyplot := Toy.blank),
     get_paths (Pyplot := Toy.blank) cs = Ok []) /\
  exists l' w',
    experiment (PLT := Toy.blank) (SQ := Toy.sqrt4) 1 2
      (Toy.blank_locals, Toy.blank_world) (1%nat, 1 # 4) = Ok (l', w') /\
    margin_widths l' = [Np.NaN] /\
    stdout w' = [].
Proof.
  split; [reflexivity|].
  destruct (experiment_margin (R := Toy.random) (SK := Toy.sklearn)
              (PLT := Toy.blank) (SQ := Toy.sqrt4) toy_mvn_shape
              1 2 Toy.blank_locals Toy.blank_world 1 (1 # 4))
    as (l' & w' & x_lo & x_hi & y_lo & y_hi & panel & E & _ & H).
  cbv zeta in H. destruct H as (Hm & Hout & _).
  exists l', w'. split; [exact E|]. split; [exact Hm|exact Hout].
Qed.

Lemma margin_caption_witness :
  mvn_shape Toy.random /\
  exists l' w' panel md,
    experiment (SQ := Toy.sqrt4) 1 2 (Toy.locals0, Toy.world0) (1%nat, 1 # 4)
      = Ok (l', w') /\
    axes l' = [panel] /\
    snd (panel_margin panel) = margin_text md /\
    (snd (panel_margin panel) = "Margin Width: N/A"%string <->
     md = None \/ exists m, md = Some m /\ m == 0).
Proof.
  split; [exact toy_mvn_shape|].
  destruct (margin_caption (R := Toy.random) (SK := Toy.sklearn)
              (PLT := Toy.pyplot) (SQ := Toy.sqrt4) toy_mvn_shape
              1 2 Toy.locals0 Toy.world0 1 (1 # 4))
    as (l' & w' & panel & md & E & Hax & _ & Ht & Hiff & _).
  exists l', w', panel, md. repeat split; try assumption; apply Hiff.
Defined.

(** A zero margin can occur: when the two regions share a vertex, the entry
    recorded is the number 0 and the caption reads [N/A]. *)
Example zero_margin_reads_na :
  exists l' w' panel,
    experiment (PLT := Toy.touching) (SQ := Toy.sqrt4) 1 2
      (Toy.touching_locals, Toy.touching_world) (1%nat, 1 # 4) = Ok (l', w') /\
    axes l' = [panel] /\
    margin_widths l' = [Np.Finite (0 # 10000)] /\
    snd (panel_margin panel) = "Margin Width: N/A"%string.
Proof.
  destruct (experiment_margin (R := Toy.random) (SK := Toy.sklearn)
              (PLT := Toy.touching) (SQ := Toy.sqrt4) toy_mvn_shape
              1 2 Toy.touching_locals Toy.touching_world 1 (1 # 4))
    as (l' & w' & x_lo & x_hi & y_lo & y_hi & panel & E & _ & H).
  cbv zeta in H. destruct H as (Hm & _ & Hax & _ & Ht & _).
  exists l', w', panel. split; [exact E|]. split; [exact Hax|].
  split; [exact Hm|exact Ht].
Qed.

(** * Further properties of the script *)

(** ** Dicts *)

Section Dict.

Context {K V : Type} (eqb : K -> K -> bool).
Hypothesis eqb_sym : forall a b, eqb a b = true -> eqb b a = true.
Hypothesis eqb_trans :
  forall a b c, eqb a b = true -> eqb b c = true -> eqb a c = true.

Lemma dict_get_set_equal (k k' : K) (v : V) (d : list (K * V)) :
  eqb k k' = true -> dict_get eqb k' (dict_set eqb k v d) = Some v.
Proof.
  intros Hk. induction d as [|[k0 v0] d IH]; simpl.
  - now rewrite Hk.
  - destruct (eqb k0 k) eqn:E; simpl.
    + now rewrite (eqb_trans _ _ _ E Hk).
    + destruct (eqb k0 k') eqn:E'; [|exact IH].
      rewrite (eqb_trans _ _ _ E' (eqb_sym _ _ Hk)) in E. discriminate.
Qed.

Lemma dict_get_set_other (k k' : K) (v : V) (d : list (K * V)) :
  eqb k k' = false ->
  dict_get eqb k' (dict_set eqb k v d) = dict_get eqb k' d.
Proof.
  intros Hk. induction d as [|[k0 v0] d IH]; simpl.
  - now rewrite Hk.
  - destruct (eqb k0 k) eqn:E; simpl.
    + destruct (eqb k0 k') eqn:E'; [|reflexivity].
      rewrite (eqb_trans _ _ _ (eqb_sym _ _ E) E') in Hk. discriminate.
    + destruct (eqb k0 k'); [reflexivity|exact IH].
Qed.

(** Assigning to a key that is there keeps the keys as they are. *)
Lemma dict_set_keys_present (k : K) (v v' : V) (d : list (K * V)) :
  dict_get eqb k d = Some v' ->
  map fst (dict_set eqb k v d) = map fst d.
Proof.
  induction d as [|[k0 v0] d IH]; simpl; [discriminate|].
  destruct (eqb k0 k); simpl; [reflexivity|].
  intros H. now rewrite IH.
Qed.

End Dict.

Lemma Qeq_bool_sym' (a b : Q) : Qeq_bool a b = true -> Qeq_bool b a = true.
Proof. apply Qeq_bool_sym. Qed.

Lemma string_eqb_sym (a b : string) :
  String.eqb a b = true -> String.eqb b a = true.
Proof. rewrite !String.eqb_eq. congruence. Qed.

Lemma string_eqb_trans (a b c : string) :
  String.eqb a b = true -> String.eqb b c = true -> String.eqb a c = true.
Proof. rewrite !String.eqb_eq. congruence. Qed.

(** ** The loop, one invariant at a time *)

Section Loop.

Context {R : NumpyRandom} {SK : Sklearn} {PLT : Pyplot} {SQ : RealSqrt}.

(** A property that holds before the loop and that every iteration carries
    over holds when the loop ends, and the loop does end. *)
Lemma sweep_invariant (Hshape : mvn_shape R) (n_rows n_cols : nat)
    (P : list (nat * Q) -> Locals -> World -> Prop) :
  (forall done i d l1 w1 l2 w2,
     P done l1 w1 ->
     experiment n_rows n_cols (l1, w1) (i, d) = Ok (l2, w2) ->
     P (done ++ [(i, d)]) l2 w2) ->
  forall ids done l w,
    P done l w ->
    exists l' w',
      sweep n_rows n_cols ids (l, w) = Ok (l', w') /\ P (done ++ ids) l' w'.
Proof.
  intros Hstep. induction ids as [|[i d] ids IH]; intros done l w HP.
  - exists l, w. rewrite app_nil_r. now split.
  - destruct (experiment_spec Hshape n_rows n_cols l w i d)
      as (x_lo & x_hi & y_lo & y_hi & _ & E).
    cbv zeta in E. cbn [sweep]. rewrite E. cbn [bind].
    match goal with |- context [sweep _ _ _ (?l1, ?w1)] =>
      destruct (IH (done ++ [(i, d)]) l1 w1) as (l' & w' & E' & HP') end.
    + eapply Hstep; [exact HP|exact E].
    + exists l', w'. split; [exact E'|].
      now rewrite <- app_assoc in HP'.
Qed.

(** [do_experiments] is the loop followed by the two [savefig]. *)
Lemma do_experiments_after_sweep (start end_ : Q) (step_num : nat)
    (w w1 : World) (l' : Locals) :
  let n_rows := ((step_num + 2 - 1) / 2)%nat in
  sweep n_rows 2 (enumerate (Np.linspace start end_ step_num) 1)
    ({| shift_distances := Np.linspace start end_ step_num;
        beta0_list := []; beta1_list := []; beta2_list := [];
        slope_list := []; intercept_list := [];
        loss_list := []; margin_widths := [];
        sample_data := []; axes := [] |}, w) = Ok (l', w1) ->
  do_experiments start end_ step_num w =
    Ok (l',
        savefig trends_png (TrendFigure (18, 15) (plot_trends l'))
          (savefig dataset_png
             (PanelFigure (20, inject_Z (Z.of_nat n_rows) * 10) (axes l'))
             w1)).
Proof.
  intros n_rows E. unfold do_experiments. fold n_rows. rewrite E. reflexivity.
Qed.

(** What one iteration does to everything but the margin width. *)
Lemma experiment_effects (Hshape : mvn_shape R) (n_rows n_cols : nat)
    (l : Locals) (w : World) (i : nat) (d : Q) :
  exists l' w' panel md printed,
    experiment n_rows n_cols (l, w) (i, d) = Ok (l', w') /\
    axes l' = axes l ++ [panel] /\
    panel_for n_rows n_cols (i, d) panel /\
    sample_data l' = dict_set Qeq_bool d (sample_of d md) (sample_data l) /\
    rng w' = snd (generate_ellipsoid_clusters d 100 0.5 (rng w)) /\
    files w' = files w /\
    stdout w' = stdout w ++ printed /\
    (length printed <= 1)%nat /\
    (forall line, In line printed -> exists e, line = MarginError d e).
Proof.
  destruct (experiment_spec Hshape n_rows n_cols l w i d)
    as (x_lo & x_hi & y_lo & y_hi & Hbox & E).
  cbv zeta in E. rewrite generate_any_state in E, Hbox.
  rewrite confidence_bands_eq in E. cbv zeta in E.
  cbn [min_distance bs_margin_widths bs_stdout bs_bands] in E.
  match type of E with context [margin_print d ?r0] => set (r := r0) in * end.
  eexists _, _, _, (margin_value r), (margin_print d r).
  split; [exact E|].
  cbn [axes sample_data rng files stdout].
  split; [reflexivity|]. split.
  { unfold panel_for.
    cbn [panel_subplot panel_legend panel_title panel_scatter panel_xlim
         panel_ylim fst snd].
    split; [reflexivity|]. split; [reflexivity|]. split; [reflexivity|].
    split.
    - now destruct (dataset d).
    - exists x_lo, x_hi, y_lo, y_hi.
      split; [exact Hbox|split; reflexivity]. }
  split; [reflexivity|]. split; [reflexivity|]. split; [reflexivity|].
  split; [reflexivity|]. split.
  - destruct r as [[m|]|e]; cbn; lia.
  - intros line Hin. destruct r as [[m|]|e]; cbn in Hin; try contradiction.
    destruct Hin as [<-|[]]. now exists e.
Qed.

End Loop.

(** ** The panels of the first figure *)

Lemma Forall2_nth_error_r {A B : Type} (P : A -> B -> Prop)
    (l1 : list A) (l2 : list B) (k : nat) (b : B) :
  Forall2 P l1 l2 -> nth_error l2 k = Some b ->
  exists a, nth_error l1 k = Some a /\ P a b.
Proof.
  intros H. revert k. induction H as [|x y l1 l2 Hxy H IH]; intros k.
  - destruct k; discriminate.
  - destruct k as [|k]; simpl.
    + intros [= <-]. now exists x.
    + apply IH.
Qed.

Lemma enumerate_nth_error {A : Type} (l : list A) (start k i : nat) (x : A) :
  nth_error (enumerate l start) k = Some (i, x) ->
  i = (start + k)%nat /\ nth_error l k = Some x.
Proof.
  unfold enumerate. revert start k.
  induction l as [|y l IH]; intros start k; simpl.
  - destruct k; discriminate.
  - destruct k as [|k]; simpl.
    + intros [= <- <-]. split; [lia|reflexivity].
    + intros H. apply IH in H as (-> & H). split; [lia|exact H].
Qed.

Section Panels.

Context {R : NumpyRandom} {SK : Sklearn} {PLT : Pyplot} {SQ : RealSqrt}.

Lemma sweep_panels (Hshape : mvn_shape R) (n_rows n_cols : nat)
    (ids : list (nat * Q)) (l : Locals) (w : World) :
  exists l' w' panels,
    sweep n_rows n_cols ids (l, w) = Ok (l', w') /\
    axes l' = axes l ++ panels /\
    Forall2 (panel_for n_rows n_cols) ids panels.
Proof.
  destruct (sweep_invariant Hshape n_rows n_cols
              (fun done l1 _ =>
                 exists panels,
                   axes l1 = axes l ++ panels /\
                   Forall2 (panel_for n_rows n_cols) done panels))
    with (ids := ids) (done := @nil (nat * Q)) (l := l) (w := w)
    as (l' & w' & E & panels & Hax & HF).
  - intros done i d l1 w1 l2 w2 (panels & Hax & HF) E.
    destruct (experiment_effects Hshape n_rows n_cols l1 w1 i d)
      as (l3 & w3 & panel & md & printed & E3 & Hax3 & Hp & _).
    rewrite E in E3. injection E3 as <- <-.
    exists (panels ++ [panel]). split.
    + now rewrite Hax3, Hax, app_assoc.
    + apply Forall2_app; [exact HF|]. now constructor.
  - exists []. split; [now rewrite app_nil_r|constructor].
  - now exists l', w', panels.
Qed.

(** The distance and the panel at one position of a finished run. *)
Lemma do_experiments_panels (Hshape : mvn_shape R) (start end_ : Q)
    (step_num : nat) (w : World) :
  let n_rows := ((step_num + 2 - 1) / 2)%nat in
  exists l' w',
    do_experiments start end_ step_num w = Ok (l', w') /\
    shift_distances l' = Np.linspace start end_ step_num /\
    length (axes l') = step_num /\
    dict_get String.eqb dataset_png (files w') =
      Some (PanelFigure (20, inject_Z (Z.of_nat n_rows) * 10) (axes l')) /\
    forall k panel,
      nth_error (axes l') k = Some panel ->
      exists d,
        nth_error (shift_distances l') k = Some d /\
        panel_for n_rows 2 (S k, d) panel.
Proof.
  intros n_rows.
  match goal with |- context [shift_distances _ = ?ds0] => set (ds := ds0) end.
  destruct (sweep_panels Hshape n_rows 2 (enumerate ds 1)
              {| shift_distances := ds;
                 beta0_list := []; beta1_list := []; beta2_list := [];
                 slope_list := []; intercept_list := [];
                 loss_list := []; margin_widths := [];
                 sample_data := []; axes := [] |} w)
    as (l' & w1 & panels & E & Hax & HF).
  cbn [axes app] in Hax.
  destruct (sweep_spec Hshape n_rows 2 (enumerate ds 1)
              {| shift_distances := ds;
                 beta0_list := []; beta1_list := []; beta2_list := [];
                 slope_list := []; intercept_list := [];
                 loss_list := []; margin_widths := [];
                 sample_data := []; axes := [] |} w)
    as (l'' & w'' & E'' & [Hd _ _ _ _ _ _ _ _ _ _]).
  rewrite E in E''. injection E'' as <- <-. cbn [shift_distances] in Hd.
  eexists l', _. split; [exact (do_experiments_after_sweep _ _ _ _ _ _ E)|].
  split; [exact Hd|]. split.
  { rewrite Hax, <- (Forall2_length HF), enumerate_length.
    apply linspace_length. }
  split.
  { cbn [savefig files].
    rewrite (dict_get_set_other String.eqb string_eqb_sym string_eqb_trans)
      by reflexivity.
    apply dict_get_set. apply String.eqb_refl. }
  intros k panel Hk. rewrite Hax in Hk.
  destruct (Forall2_nth_error_r _ _ _ _ _ HF Hk) as ([i d] & Hid & Hp).
  apply enumerate_nth_error in Hid as (-> & Hd').
  exists d. rewrite Hd. split; [exact Hd'|exact Hp].
Qed.

(** X1. With at least one step, the first figure holds one panel per
    distance, in sweep order, in a grid of two columns and
    [ceil(step_num / 2)] rows: the panel at position [k] shows the dataset
    of the distance at position [k] under that distance's title, sits in
    slot [k + 1], every slot lies inside the grid, no row is left empty, and
    only the first panel carries the legend. *)
Theorem panel_layout (Hshape : mvn_shape R) (start end_ : Q)
    (step_num : nat) (w : World) :
  (1 <= step_num)%nat ->
  let n_rows := ((step_num + 2 - 1) / 2)%nat in
  exists l' w',
    do_experiments start end_ step_num w = Ok (l', w') /\
    dict_get String.eqb dataset_png (files w') =
      Some (PanelFigure (20, inject_Z (Z.of_nat n_rows) * 10) (axes l')) /\
    length (axes l') = step_num /\
    (step_num <= n_rows * 2 < step_num + 2)%nat /\
    forall k panel,
      nth_error (axes l') k = Some panel ->
      exists d,
        nth_error (Np.linspace start end_ step_num) k = Some d /\
        panel_scatter panel = dataset d /\
        panel_title panel = ("Shift Distance = " ++ Fmt.fixed2 d)%string /\
        panel_subplot panel = (n_rows, 2%nat, S k) /\
        (S k <= n_rows * 2)%nat /\
        panel_legend panel = (k =? 0)%nat.
Proof.
  intros Hn n_rows.
  destruct (do_experiments_panels Hshape start end_ step_num w)
    as (l' & w' & E & Hd & Hlen & Hfile & Hpanels).
  fold n_rows in Hfile, Hpanels.
  assert (Hrows : (step_num <= n_rows * 2 < step_num + 2)%nat).
  { subst n_rows.
    pose proof (Nat.div_mod_eq (step_num + 2 - 1) 2) as Hdiv.
    pose proof (Nat.mod_upper_bound (step_num + 2 - 1) 2) as Hmod. lia. }
  exists l', w'. split; [exact E|]. split; [exact Hfile|].
  split; [exact Hlen|]. split; [exact Hrows|].
  intros k panel Hk.
  destruct (Hpanels k panel Hk) as (d & Hnth & Hsub & Hleg & Htitle & Hsc & _).
  cbn [fst snd] in Hsub, Hleg, Htitle, Hsc.
  exists d. rewrite <- Hd. split; [exact Hnth|]. split; [exact Hsc|].
  split; [exact Htitle|]. split; [exact Hsub|]. split.
  - assert (k < step_num)%nat
      by (rewrite <- Hlen; apply nth_error_Some; congruence).
    lia.
  - exact Hleg.
Qed.

(** X2. With at least one step, every panel scatters the 200 points
    generated for its distance, and its limits are computed from them: the x
    limits are the least x coordinate minus 1 and the greatest plus 1, the y
    limits likewise, each extreme being the coordinate of some point and a
    bound for all of them. *)
Theorem panel_limits (Hshape : mvn_shape R) (start end_ : Q)
    (step_num : nat) (w : World) :
  (1 <= step_num)%nat ->
  exists l' w',
    do_experiments start end_ step_num w = Ok (l', w') /\
    forall k panel,
      nth_error (axes l') k = Some panel ->
      exists d x_lo x_hi y_lo y_hi,
        nth_error (Np.linspace start end_ step_num) k = Some d /\
        panel_scatter panel = dataset d /\
        length (fst (panel_scatter panel)) = 200%nat /\
        tight_box (fst (panel_scatter panel)) x_lo x_hi y_lo y_hi /\
        panel_xlim panel = (x_lo - 1, x_hi + 1) /\
        panel_ylim panel = (y_lo - 1, y_hi + 1).
Proof.
  intros Hn.
  destruct (do_experiments_panels Hshape start end_ step_num w)
    as (l' & w' & E & Hd & _ & _ & Hpanels).
  exists l', w'. split; [exact E|].
  intros k panel Hk.
  destruct (Hpanels k panel Hk)
    as (d & Hnth & _ & _ & _ & Hsc & x_lo & x_hi & y_lo & y_hi
        & Hbox & Hx & Hy).
  cbn [snd] in Hsc, Hbox, Hx, Hy.
  exists d, x_lo, x_hi, y_lo, y_hi. rewrite <- Hd.
  split; [exact Hnth|]. split; [exact Hsc|]. rewrite Hsc. split.
  { unfold dataset. now rewrite generate_points_length. }
  split; [exact Hbox|]. split; [exact Hx|exact Hy].
Qed.

End Panels.

(** ** What the sweep leaves outside its lists *)

Section SideEffects.

Context {R : NumpyRandom} {SK : Sklearn} {PLT : Pyplot} {SQ : RealSqrt}.

Lemma sweep_samples (Hshape : mvn_shape R) (n_rows n_cols : nat)
    (ids : list (nat * Q)) (l : Locals) (w : World) :
  exists l' w',
    sweep n_rows n_cols ids (l, w) = Ok (l', w') /\
    forall d, In d (map snd ids) ->
      exists before d' after md,
        map snd ids = before ++ d' :: after /\
        d' == d /\
        Forall (fun e => ~ e == d) after /\
        dict_get Qeq_bool d (sample_data l') = Some (sample_of d' md).
Proof.
  destruct (sweep_invariant Hshape n_rows n_cols
              (fun done l1 _ =>
                 forall d, In d (map snd done) ->
                   exists before d' after md,
                     map snd done = before ++ d' :: after /\
                     d' == d /\
                     Forall (fun e => ~ e == d) after /\
                     dict_get Qeq_bool d (sample_data l1)
                     = Some (sample_of d' md)))
    with (ids := ids) (done := @nil (nat * Q)) (l := l) (w := w)
    as (l' & w' & E & H).
  - intros done i d l1 w1 l2 w2 IH E.
    destruct (experiment_effects Hshape n_rows n_cols l1 w1 i d)
      as (l3 & w3 & panel & md & printed & E3 & _ & _ & Hs & _).
    rewrite E in E3. injection E3 as <- <-.
    intros k Hk. rewrite Hs. rewrite map_app in Hk |- *. cbn [map snd] in *.
    destruct (Qeq_bool d k) eqn:Edk.
    + exists (map snd done), d, [], md.
      split; [reflexivity|]. split; [now apply Qeq_bool_eq|].
      split; [constructor|].
      now apply (dict_get_set_equal Qeq_bool Qeq_bool_sym' Qeq_bool_trans).
    + rewrite (dict_get_set_other Qeq_bool Qeq_bool_sym' Qeq_bool_trans)
        by assumption.
      apply in_app_or in Hk as [Hk|[<-|[]]].
      * destruct (IH k Hk) as (before & d' & after & md' & Hsplit & Hq & Ha
                               & Hget).
        exists before, d', (after ++ [d]), md'.
        split; [now rewrite Hsplit, <- app_assoc|]. split; [exact Hq|].
        split; [|exact Hget].
        apply Forall_app. split; [exact Ha|].
        constructor; [|constructor]. now apply Qeq_bool_neq.
      * rewrite Qeq_bool_refl in Edk. discriminate.
  - intros d [].
  - exists l', w'. split; [exact E|exact H].
Qed.

(** X3. With at least one step, after the sweep [sample_data] can be read
    at every distance of the sweep, and what is read there is the dataset,
    the model and the three weights of the last distance of the sweep that
    compares equal to the key: a later iteration at an equal distance
    overwrites the record of an earlier one. *)
Theorem sample_data_lookup (Hshape : mvn_shape R) (start end_ : Q)
    (step_num : nat) (w : World) :
  (1 <= step_num)%nat ->
  exists l' w',
    do_experiments start end_ step_num w = Ok (l', w') /\
    forall d, In d (Np.linspace start end_ step_num) ->
      exists before d' after md,
        Np.linspace start end_ step_num = before ++ d' :: after /\
        d' == d /\
        Forall (fun e => ~ e == d) after /\
        dict_get Qeq_bool d (sample_data l') =
          Some (fst (dataset d'), snd (dataset d'), fitted d',
                beta0_at d', beta1_at d', beta2_at d', md).
Proof.
  intros Hn. set (ds := Np.linspace start end_ step_num).
  destruct (sweep_samples Hshape ((step_num + 2 - 1) / 2) 2 (enumerate ds 1)
              {| shift_distances := ds;
                 beta0_list := []; beta1_list := []; beta2_list := [];
                 slope_list := []; intercept_list := [];
                 loss_list := []; margin_widths := [];
                 sample_data := []; axes := [] |} w)
    as (l' & w1 & E & H).
  rewrite enumerate_snd in H.
  eexists l', _. split; [exact (do_experiments_after_sweep _ _ _ _ _ _ E)|].
  exact H.
Qed.

Lemma sweep_console (Hshape : mvn_shape R) (n_rows n_cols : nat)
    (ids : list (nat * Q)) (l : Locals) (w : World) :
  exists l' w' printed,
    sweep n_rows n_cols ids (l, w) = Ok (l', w') /\
    stdout w' = stdout w ++ printed /\
    (length printed <= length ids)%nat /\
    (forall line, In line printed ->
       exists d e, In d (map snd ids) /\ line = MarginError d e) /\
    files w' = files w /\
    (ids <> [] ->
     rng w' = snd (generate_ellipsoid_clusters 0 100 0.5 (seed 0))).
Proof.
  destruct (sweep_invariant Hshape n_rows n_cols
              (fun done _ w1 =>
                 exists printed,
                   stdout w1 = stdout w ++ printed /\
                   (length printed <= length done)%nat /\
                   (forall line, In line printed ->
                      exists d e,
                        In d (map snd done) /\ line = MarginError d e) /\
                   files w1 = files w /\
                   (done <> [] ->
                    rng w1
                    = snd (generate_ellipsoid_clusters 0 100 0.5 (seed 0)))))
    with (ids := ids) (done := @nil (nat * Q)) (l := l) (w := w)
    as (l' & w' & E & printed & H).
  - intros done i d l1 w1 l2 w2 (printed & Hout & Hlen & Hlines & Hf & _) E.
    destruct (experiment_effects Hshape n_rows n_cols l1 w1 i d)
      as (l3 & w3 & panel & md & new & E3 & _ & _ & _ & Hr & Hf3 & Hout3
          & Hlen3 & Hlines3).
    rewrite E in E3. injection E3 as <- <-.
    exists (printed ++ new). split; [now rewrite Hout3, Hout, app_assoc|].
    split; [rewrite !length_app; cbn [length]; lia|]. split.
    + intros line Hin. rewrite map_app. cbn [map snd].
      apply in_app_or in Hin as [Hin|Hin].
      * destruct (Hlines line Hin) as (d0 & e & Hd0 & ->).
        exists d0, e. split; [apply in_or_app; now left|reflexivity].
      * destruct (Hlines3 line Hin) as (e & ->).
        exists d, e. split; [apply in_or_app; right; now left|reflexivity].
    + split; [congruence|]. intros _. rewrite Hr.
      now rewrite !generate_unfold.
  - exists []. rewrite app_nil_r. repeat split; auto.
    + intros line [].
    + congruence.
  - now exists l', w', printed.
Qed.

Lemma sweep_console_lines (Hshape : mvn_shape R) (n_rows n_cols : nat)
    (ids : list (nat * Q)) (l : Locals) (w : World) :
  exists l' w' per,
    sweep n_rows n_cols ids (l, w) = Ok (l', w') /\
    stdout w' = stdout w ++ concat per /\
    Forall2 (fun d lines =>
               (length lines <= 1)%nat /\
               forall line, In line lines -> exists e, line = MarginError d e)
      (map snd ids) per.
Proof.
  destruct (sweep_invariant Hshape n_rows n_cols
              (fun done _ w1 =>
                 exists per,
                   stdout w1 = stdout w ++ concat per /\
                   Forall2 (fun d lines =>
                              (length lines <= 1)%nat /\
                              forall line, In line lines ->
                                exists e, line = MarginError d e)
                     (map snd done) per))
    with (ids := ids) (done := @nil (nat * Q)) (l := l) (w := w)
    as (l' & w' & E & per & H).
  - intros done i d l1 w1 l2 w2 (per & Hout & HF) E.
    destruct (experiment_effects Hshape n_rows n_cols l1 w1 i d)
      as (l3 & w3 & panel & md & new & E3 & _ & _ & _ & _ & _ & Hout3
          & Hlen3 & Hlines3).
    rewrite E in E3. injection E3 as <- <-.
    exists (per ++ [new]). split.
    + rewrite Hout3, Hout, concat_app. cbn [concat].
      now rewrite app_nil_r, app_assoc.
    + rewrite map_app. apply Forall2_app; [exact HF|].
      constructor; [|constructor]. split; [exact Hlen3|exact Hlines3].
  - exists []. split; [cbn; now rewrite app_nil_r|constructor].
  - now exists l', w', per.
Qed.

(** X4. With at least one step, what a run prints comes after whatever the
    console already shows and is, distance by distance in sweep order, either
    nothing or the one margin-width error line that names that distance. *)
Theorem console_output_bound (Hshape : mvn_shape R) (start end_ : Q)
    (step_num : nat) (w : World) :
  (1 <= step_num)%nat ->
  exists l' w' per,
    do_experiments start end_ step_num w = Ok (l', w') /\
    stdout w' = stdout w ++ concat per /\
    Forall2 (fun d lines =>
               (length lines <= 1)%nat /\
               forall line, In line lines -> exists e, line = MarginError d e)
      (Np.linspace start end_ step_num) per.
Proof.
  intros Hn. set (ds := Np.linspace start end_ step_num).
  destruct (sweep_console_lines Hshape ((step_num + 2 - 1) / 2) 2
              (enumerate ds 1)
              {| shift_distances := ds;
                 beta0_list := []; beta1_list := []; beta2_list := [];
                 slope_list := []; intercept_list := [];
                 loss_list := []; margin_widths := [];
                 sample_data := []; axes := [] |} w)
    as (l' & w1 & per & E & Hout & HF).
  rewrite enumerate_snd in HF.
  eexists l', _, per.
  split; [exact (do_experiments_after_sweep _ _ _ _ _ _ E)|].
  cbn [savefig stdout]. split; [exact Hout|exact HF].
Qed.

(** X5. A run of at least one step leaves numpy's global generator in the
    state that follows two draws of 100 rows from seed 0, whatever the state
    before the run and whatever the distances. *)
Theorem generator_state_after_run (Hshape : mvn_shape R) (start end_ : Q)
    (step_num : nat) (w : World) :
  (1 <= step_num)%nat ->
  let cov := ((0.5, 0.5 * 0.8), (0.5 * 0.8, 0.5)) in
  exists l' w',
    do_experiments start end_ step_num w = Ok (l', w') /\
    rng w' =
      snd (multivariate_normal (1, 1) cov 100
             (snd (multivariate_normal (1, 1) cov 100 (seed 0)))).
Proof.
  intros Hn cov. set (ds := Np.linspace start end_ step_num).
  destruct (sweep_console Hshape ((step_num + 2 - 1) / 2) 2 (enumerate ds 1)
              {| shift_distances := ds;
                 beta0_list := []; beta1_list := []; beta2_list := [];
                 slope_list := []; intercept_list := [];
                 loss_list := []; margin_widths := [];
                 sample_data := []; axes := [] |} w)
    as (l' & w1 & printed & E & _ & _ & _ & _ & Hrng).
  eexists l', _.
  split; [exact (do_experiments_after_sweep _ _ _ _ _ _ E)|].
  cbn [savefig rng]. rewrite Hrng.
  - now rewrite generate_unfold.
  - intros Hnil. apply (f_equal (@length (nat * Q))) in Hnil.
    rewrite enumerate_length in Hnil. subst ds.
    rewrite linspace_length in Hnil. cbn in Hnil. lia.
Qed.

(** X6. A run of at least one step leaves every file other than its two
    images as it was, and
    writes the images over the ones already there: when both exist before
    the run, the directory lists the same names, in the same order,
    afterwards. *)
Theorem other_files_untouched (Hshape : mvn_shape R) (start end_ : Q)
    (step_num : nat) (w : World) :
  (1 <= step_num)%nat ->
  exists l' w',
    do_experiments start end_ step_num w = Ok (l', w') /\
    (forall path,
       path <> dataset_png -> path <> trends_png ->
       dict_get String.eqb path (files w')
       = dict_get String.eqb path (files w)) /\
    (forall old1 old2,
       dict_get String.eqb dataset_png (files w) = Some old1 ->
       dict_get String.eqb trends_png (files w) = Some old2 ->
       map fst (files w') = map fst (files w)).
Proof.
  intros Hn.
  destruct (do_experiments_spec Hshape start end_ step_num w)
    as (l' & w1 & E & Hf & _).
  eexists l', _. split; [exact E|]. cbn [savefig files]. rewrite Hf. split.
  - intros path H1 H2.
    rewrite !(dict_get_set_other String.eqb string_eqb_sym string_eqb_trans);
      [reflexivity| |]; apply String.eqb_neq; congruence.
  - intros old1 old2 H1 H2.
    rewrite (dict_set_keys_present String.eqb _ _ old2).
    + now rewrite (dict_set_keys_present String.eqb _ _ old1).
    + rewrite (dict_get_set_other String.eqb string_eqb_sym string_eqb_trans)
        by reflexivity.
      exact H2.
Qed.

End SideEffects.

(** ** The trends figure *)

Lemma divide_length (a b : list Q) :
  length a = length b -> length (Np.divide a b) = length a.
Proof.
  revert b. induction a as [|x a IH]; intros [|y b] H; simpl in *;
    try discriminate; auto.
Qed.

Lemma nth_error_divide (a b : list Q) (i : nat) (x y : Q) :
  nth_error a i = Some x -> nth_error b i = Some y ->
  nth_error (Np.divide a b) i = Some (Np.true_divide x y).
Proof.
  revert b i. induction a as [|x0 a IH]; intros [|y0 b] [|i]; simpl;
    try discriminate.
  - now intros [= ->] [= ->].
  - apply IH.
Qed.

Lemma nth_error_combine {A B : Type} (l1 : list A) (l2 : list B) (i : nat)
    (a : A) (b : B) :
  nth_error l1 i = Some a -> nth_error l2 i = Some b ->
  nth_error (combine l1 l2) i = Some (a, b).
Proof.
  revert l2 i. induction l1 as [|x l1 IH]; intros [|y l2] [|i]; simpl;
    try discriminate.
  - now intros [= ->] [= ->].
  - apply IH.
Qed.

Lemma true_divide_zero (a b : Q) : b == 0 -> non_finite (Np.true_divide a b).
Proof.
  intros Hb. unfold Np.true_divide, non_finite.
  rewrite (proj2 (Qeq_bool_iff b 0) Hb).
  destruct (a ?= 0); cbn; auto.
Qed.

(** The two arrays of the slope subplot have one length, and hold finite
    values only. *)
Lemma slope_plot_shape (ds b1s b2s : list Q) :
  length ds = length b1s -> length b1s = length b2s ->
  length (fst (slope_plot ds b1s b2s)) = length (snd (slope_plot ds b1s b2s)) /\
  (length (fst (slope_plot ds b1s b2s)) <= length ds)%nat /\
  Forall (fun v => exists q, v = Np.Finite q) (snd (slope_plot ds b1s b2s)).
Proof.
  unfold slope_plot, Np.finite_mask, Np.add_scalar. cbn [fst snd].
  set (epsilon := 1 # 100000000).
  revert b1s b2s. induction ds as [|d ds IH]; intros [|b1 b1s] [|b2 b2s] H1 H2;
    simpl in H1, H2; try discriminate.
  - cbn. repeat split; auto.
  - cbn [map Np.divide Np.select].
    destruct (IH b1s b2s) as (IH1 & IH2 & IH3); [lia|lia|].
    remember (Np.true_divide b1 (b2 + epsilon)) as q eqn:Hq.
    unfold Np.true_divide in Hq.
    destruct (Qeq_bool (b2 + epsilon) 0).
    + destruct (b1 ?= 0); subst q; cbn [Np.isnan Np.isinf negb andb length];
        (split; [exact IH1|split; [lia|exact IH3]]).
    + subst q. cbn [Np.isnan Np.isinf negb andb length].
      split; [now rewrite IH1|]. split; [lia|].
      constructor; [now eexists|exact IH3].
Qed.

Section Trends.

Context {R : NumpyRandom} {SK : Sklearn} {PLT : Pyplot} {SQ : RealSqrt}.

(** X7. With at least one step, in the trends figure every subplot is
    drawn from two arrays of one length, so no [plt.plot] is handed mismatched data: six of them plot one
    value per distance, the margin subplot with its [nan] entries included,
    and the slope subplot plots at most one finite value per distance. *)
Theorem trend_series_shapes (Hshape : mvn_shape R) (start end_ : Q)
    (step_num : nat) (w : World) :
  (1 <= step_num)%nat ->
  exists l' w' T,
    do_experiments start end_ step_num w = Ok (l', w') /\
    dict_get String.eqb trends_png (files w') = Some (TrendFigure (18, 15) T) /\
    length (shift_distances l') = step_num /\
    (fst (trend_beta0 T) = shift_distances l' /\
     length (snd (trend_beta0 T)) = step_num) /\
    (fst (trend_beta1 T) = shift_distances l' /\
     length (snd (trend_beta1 T)) = step_num) /\
    (fst (trend_beta2 T) = shift_distances l' /\
     length (snd (trend_beta2 T)) = step_num) /\
    (fst (trend_intercept T) = shift_distances l' /\
     length (snd (trend_intercept T)) = step_num) /\
    (fst (trend_loss T) = shift_distances l' /\
     length (snd (trend_loss T)) = step_num) /\
    (fst (trend_margin T) = shift_distances l' /\
     snd (trend_margin T) = margin_widths l' /\
     length (snd (trend_margin T)) = step_num) /\
    length (fst (trend_slope T)) = length (snd (trend_slope T)) /\
    (length (fst (trend_slope T)) <= step_num)%nat /\
    Forall (fun v => exists q, v = Np.Finite q) (snd (trend_slope T)).
Proof.
  intros Hstep.
  destruct (do_experiments_spec Hshape start end_ step_num w)
    as (l' & w1 & E & _ & Hd & H0 & H1 & H2 & _ & _ & Hl & Hm & _).
  assert (Hn : length (shift_distances l') = step_num)
    by (rewrite Hd; apply linspace_length).
  assert (L0 : length (beta0_list l') = step_num)
    by (rewrite H0, length_map, <- Hd; exact Hn).
  assert (L1 : length (beta1_list l') = step_num)
    by (rewrite H1, length_map, <- Hd; exact Hn).
  assert (L2 : length (beta2_list l') = step_num)
    by (rewrite H2, length_map, <- Hd; exact Hn).
  eexists l', _, (plot_trends l'). split; [exact E|]. split.
  { cbn [savefig files]. apply dict_get_set. apply String.eqb_refl. }
  cbn [plot_trends trend_beta0 trend_beta1 trend_beta2 trend_slope
       trend_intercept trend_loss trend_margin fst snd].
  split; [exact Hn|]. split; [now split|]. split; [now split|].
  split; [now split|]. split.
  { split; [reflexivity|]. rewrite divide_length; congruence. }
  split.
  { split; [reflexivity|]. rewrite Hl, length_map, <- Hd. exact Hn. }
  split; [now repeat split|].
  destruct (slope_plot_shape (shift_distances l') (beta1_list l')
              (beta2_list l')) as (S1 & S2 & S3); [congruence|congruence|].
  split; [exact S1|]. split; [now rewrite <- Hn|exact S3].
Qed.

(** X8. With at least one step, where a fitted [beta2] is zero the run
    still returns: the slope and
    the intercept recorded for that distance are non-finite, the
    intercept-ratio subplot plots a non-finite value there, and the slope
    subplot, whose guard adds the epsilon before dividing, plots the finite
    value [beta1 * 1e8] at that distance. *)
Theorem zero_weight_edge (Hshape : mvn_shape R) (start end_ : Q)
    (step_num : nat) (w : World) :
  (1 <= step_num)%nat ->
  exists l' w' T,
    do_experiments start end_ step_num w = Ok (l', w') /\
    dict_get String.eqb trends_png (files w') = Some (TrendFigure (18, 15) T) /\
    forall (i : nat) (d beta0 beta1 beta2 : Q),
      nth_error (shift_distances l') i = Some d ->
      nth_error (beta0_list l') i = Some beta0 ->
      nth_error (beta1_list l') i = Some beta1 ->
      nth_error (beta2_list l') i = Some beta2 ->
      beta2 == 0 ->
      (exists s, nth_error (slope_list l') i = Some s /\ non_finite s) /\
      (exists c, nth_error (intercept_list l') i = Some c /\ non_finite c) /\
      (exists t,
         nth_error (snd (trend_intercept T)) i = Some t /\ non_finite t) /\
      (exists v,
         In (d, Np.Finite v)
           (combine (fst (trend_slope T)) (snd (trend_slope T))) /\
         v == beta1 * 100000000).
Proof.
  intros Hn.
  destruct (do_experiments_spec Hshape start end_ step_num w)
    as (l' & w1 & E & _ & Hd & H0 & H1 & H2 & Hs & Hi & _).
  eexists l', _, (plot_trends l'). split; [exact E|]. split.
  { cbn [savefig files]. apply dict_get_set. apply String.eqb_refl. }
  intros i d beta0 beta1 beta2 Ed E0 E1 E2 Hz.
  cbn [plot_trends trend_slope trend_intercept fst snd].
  split; [|split; [|split]].
  - rewrite Hs, nth_error_map. rewrite Hd in Ed. rewrite Ed. cbn [option_map].
    eexists. split; [reflexivity|]. apply true_divide_zero.
    rewrite H2, nth_error_map, Ed in E2. now injection E2 as ->.
  - rewrite Hi, nth_error_map. rewrite Hd in Ed. rewrite Ed. cbn [option_map].
    eexists. split; [reflexivity|]. apply true_divide_zero.
    rewrite H2, nth_error_map, Ed in E2. now injection E2 as ->.
  - exists (Np.true_divide beta0 beta2).
    split; [now apply nth_error_divide|now apply true_divide_zero].
  - exists (beta1 / (beta2 + (1 # 100000000))). split.
    + rewrite slope_plot_spec. cbv zeta.
      apply in_map_iff. exists (d, beta1, beta2). split; [reflexivity|].
      apply filter_In. split.
      * eapply nth_error_In.
        apply nth_error_combine; [apply nth_error_combine|]; eassumption.
      * cbn [snd]. apply negb_true_iff.
        destruct (Qeq_bool (beta2 + (1 # 100000000)) 0) eqn:Eq; [|reflexivity].
        apply Qeq_bool_eq in Eq. rewrite Hz in Eq. discriminate Eq.
    + rewrite Hz. field.
Qed.

End Trends.

(** ** The sign of the margin width *)

Lemma toy_sqrt_laws : sqrt_laws Toy.sqrt4.
Proof.
  split.
  - intros q. unfold sqrt, Toy.sqrt4, Qle. cbn [Qnum Qden].
    pose proof (Z.sqrt_nonneg (Qnum q * Z.pos (Qden q) * 100000000)). lia.
  - intros q Hq. unfold sqrt, Toy.sqrt4.
    assert (Hn : Qnum q = 0%Z).
    { unfold Qeq in Hq. cbn [Qnum Qden] in Hq. lia. }
    rewrite Hn. reflexivity.
Defined.

Section MarginSign.

Context {PLT : Pyplot} {SQ : RealSqrt}.

(** X9. When the square root is never negative and vanishes at zero, a
    margin width that is computed is never negative, and it is zero as soon
    as the two regions share a vertex. *)
Theorem margin_nonnegative (Hlaws : sqrt_laws SQ)
    (class_1 class_0 : ContourSet) (m : Q) :
  margin_try class_1 class_0 = Ok (Some m) ->
  0 <= m /\
  forall p1 p0 v,
    get_paths class_1 = Ok p1 -> get_paths class_0 = Ok p0 ->
    In v (concat p1) -> In v (concat p0) ->
    m == 0.
Proof.
  destruct Hlaws as (Hnonneg & Hzero). intros E.
  apply margin_try_some in E as (p1 & p0 & E1 & E0 & _ & _ & Emin).
  apply min_cdist_spec in Emin as ((a & b & _ & _ & ->) & Hle).
  split; [apply Hnonneg|].
  intros q1 q0 v F1 F0 V1 V0.
  rewrite E1 in F1. rewrite E0 in F0.
  injection F1 as <-. injection F0 as <-.
  apply Qle_antisym; [|apply Hnonneg].
  eapply Qle_trans; [apply (Hle v v V1 V0)|].
  unfold euclidean. rewrite Hzero; [apply Qle_refl|ring].
Qed.

End MarginSign.

(** ** The further properties on the small implementation *)

Lemma eight_steps : (1 <= 8)%nat.
Proof. repeat constructor. Defined.

Lemma panel_layout_witness :
  mvn_shape Toy.random /\
  (1 <= 8)%nat /\
  exists l' w',
    Toy.run 0.25 2.0 8 Toy.world0 = Ok (l', w') /\
    length (axes l') = 8%nat /\
    forall k panel,
      nth_error (axes l') k = Some panel ->
      exists d,
        nth_error (Np.linspace 0.25 2.0 8) k = Some d /\
        panel_scatter panel = dataset (R := Toy.random) d /\
        panel_title panel = ("Shift Distance = " ++ Fmt.fixed2 d)%string /\
        panel_subplot panel = (4%nat, 2%nat, S k) /\
        (S k <= 4 * 2)%nat /\
        panel_legend panel = (k =? 0)%nat.
Proof.
  split; [exact toy_mvn_shape|]. split; [exact eight_steps|].
  destruct (panel_layout (R := Toy.random) (SK := Toy.sklearn)
              (PLT := Toy.pyplot) (SQ := Toy.sqrt4) toy_mvn_shape
              0.25 2.0 8 Toy.world0 eight_steps)
    as (l' & w' & E & _ & Hlen & _ & H).
  exists l', w'. split; [exact E|]. split; [exact Hlen|exact H].
Defined.

Lemma panel_limits_witness :
  mvn_shape Toy.random /\
  (1 <= 8)%nat /\
  exists l' w',
    Toy.run 0.25 2.0 8 Toy.world0 = Ok (l', w') /\
    forall k panel,
      nth_error (axes l') k = Some panel ->
      exists x_lo x_hi y_lo y_hi,
        length (fst (panel_scatter panel)) = 200%nat /\
        tight_box (fst (panel_scatter panel)) x_lo x_hi y_lo y_hi /\
        panel_xlim panel = (x_lo - 1, x_hi + 1) /\
        panel_ylim panel = (y_lo - 1, y_hi + 1).
Proof.
  split; [exact toy_mvn_shape|]. split; [exact eight_steps|].
  destruct (panel_limits (R := Toy.random) (SK := Toy.sklearn)
              (PLT := Toy.pyplot) (SQ := Toy.sqrt4) toy_mvn_shape
              0.25 2.0 8 Toy.world0 eight_steps)
    as (l' & w' & E & H).
  exists l', w'. split; [exact E|].
  intros k panel Hk.
  destruct (H k panel Hk)
    as (d & x_lo & x_hi & y_lo & y_hi & _ & _ & Hlen & Hbox & Hx & Hy).
  exists x_lo, x_hi, y_lo, y_hi.
  split; [exact Hlen|]. split; [exact Hbox|]. split; [exact Hx|exact Hy].
Defined.

Lemma sample_data_lookup_witness :
  mvn_shape Toy.random /\
  (1 <= 8)%nat /\
  exists l' w',
    Toy.run 0.25 2.0 8 Toy.world0 = Ok (l', w') /\
    forall d, In d (Np.linspace 0.25 2.0 8) ->
      exists before d' after,
        Np.linspace 0.25 2.0 8 = before ++ d' :: after /\
        d' == d /\
        Forall (fun e => ~ e == d) after /\
        dict_get Qeq_bool d (sample_data l') <> None.
Proof.
  split; [exact toy_mvn_shape|]. split; [exact eight_steps|].
  destruct (sample_data_lookup (R := Toy.random) (SK := Toy.sklearn)
              (PLT := Toy.pyplot) (SQ := Toy.sqrt4) toy_mvn_shape
              0.25 2.0 8 Toy.world0 eight_steps)
    as (l' & w' & E & H).
  exists l', w'. split; [exact E|].
  intros d Hd.
  destruct (H d Hd) as (before & d' & after & md & Hsplit & Hq & Ha & Hget).
  exists before, d', after. split; [exact Hsplit|]. split; [exact Hq|].
  split; [exact Ha|]. rewrite Hget. discriminate.
Defined.

Lemma console_output_bound_witness :
  mvn_shape Toy.random /\
  (1 <= 8)%nat /\
  exists l' w' per,
    Toy.run 0.25 2.0 8 Toy.world0 = Ok (l', w') /\
    stdout w' = concat per /\
    Forall2 (fun d lines =>
               (length lines <= 1)%nat /\
               forall line, In line lines -> exists e, line = MarginError d e)
      (Np.linspace 0.25 2.0 8) per.
Proof.
  split; [exact toy_mvn_shape|]. split; [exact eight_steps|].
  destruct (console_output_bound (R := Toy.random) (SK := Toy.sklearn)
              (PLT := Toy.pyplot) (SQ := Toy.sqrt4) toy_mvn_shape
              0.25 2.0 8 Toy.world0 eight_steps)
    as (l' & w' & per & E & Hout & HF).
  exists l', w', per. split; [exact E|]. split; [exact Hout|exact HF].
Defined.

Lemma generator_state_after_run_witness :
  mvn_shape Toy.random /\
  (1 <= 8)%nat /\
  exists l' w',
    Toy.run 0.25 2.0 8 Toy.world0 = Ok (l', w') /\
    rng w' = 200%Z.
Proof.
  split; [exact toy_mvn_shape|]. split; [exact eight_steps|].
  destruct (generator_state_after_run (R := Toy.random) (SK := Toy.sklearn)
              (PLT := Toy.pyplot) (SQ := Toy.sqrt4) toy_mvn_shape
              0.25 2.0 8 Toy.world0 eight_steps)
    as (l' & w' & E & H).
  exists l', w'. split; [exact E|]. rewrite H. reflexivity.
Defined.

Lemma other_files_untouched_witness :
  mvn_shape Toy.random /\
  (1 <= 8)%nat /\
  exists l' w',
    Toy.run 0.25 2.0 8 Toy.world0 = Ok (l', w') /\
    dict_get String.eqb "results/notes.txt"%string (files w') = None.
Proof.
  split; [exact toy_mvn_shape|]. split; [exact eight_steps|].
  destruct (other_files_untouched (R := Toy.random) (SK := Toy.sklearn)
              (PLT := Toy.pyplot) (SQ := Toy.sqrt4) toy_mvn_shape
              0.25 2.0 8 Toy.world0 eight_steps)
    as (l' & w' & E & H & _).
  exists l', w'. split; [exact E|].
  rewrite H; [reflexivity|discriminate|discriminate].
Defined.

Lemma trend_series_shapes_witness :
  mvn_shape Toy.random /\
  (1 <= 8)%nat /\
  exists l' w' T,
    Toy.run 0.25 2.0 8 Toy.world0 = Ok (l', w') /\
    dict_get String.eqb trends_png (files w') = Some (TrendFigure (18, 15) T) /\
    length (fst (trend_slope T)) = length (snd (trend_slope T)) /\
    length (snd (trend_margin T)) = 8%nat.
Proof.
  split; [exact toy_mvn_shape|]. split; [exact eight_steps|].
  destruct (trend_series_shapes (R := Toy.random) (SK := Toy.sklearn)
              (PLT := Toy.pyplot) (SQ := Toy.sqrt4) toy_mvn_shape
              0.25 2.0 8 Toy.world0 eight_steps)
    as (l' & w' & T & E & Hf & _ & _ & _ & _ & _ & _ & (_ & _ & Hm) & Hs & _).
  exists l', w', T. repeat split; assumption.
Defined.

(** The zero-weight case on the classifier whose [beta2] is always 0: at the
    first distance the recorded slope is non-finite and the slope subplot
    shows [1e8]. *)
Lemma zero_weight_edge_witness :
  mvn_shape Toy.random /\
  (1 <= 8)%nat /\
  exists l' w' T d s v,
    do_experiments (R := Toy.random) (SK := Toy.flat) (PLT := Toy.pyplot)
      (SQ := Toy.sqrt4) 0.25 2.0 8 Toy.world0 = Ok (l', w') /\
    nth_error (shift_distances l') 0 = Some d /\
    nth_error (beta2_list l') 0 = Some 0 /\
    nth_error (slope_list l') 0 = Some s /\
    non_finite s /\
    In (d, Np.Finite v)
      (combine (fst (trend_slope T)) (snd (trend_slope T))) /\
    v == 100000000.
Proof.
  split; [exact toy_mvn_shape|]. split; [exact eight_steps|].
  destruct (zero_weight_edge (R := Toy.random) (SK := Toy.flat)
              (PLT := Toy.pyplot) (SQ := Toy.sqrt4) toy_mvn_shape
              0.25 2.0 8 Toy.world0 eight_steps)
    as (l' & w' & T & E & _ & H).
  destruct (do_experiments_spec (R := Toy.random) (SK := Toy.flat)
              (PLT := Toy.pyplot) (SQ := Toy.sqrt4) toy_mvn_shape
              0.25 2.0 8 Toy.world0)
    as (l2 & w2 & E2 & _ & Hd & H0 & H1 & H2 & _).
  rewrite E in E2. injection E2 as Hl _. subst l2.
  assert (Ed : nth_error (shift_distances l') 0 = Some (175000 # 700000))
    by (rewrite Hd; reflexivity).
  assert (E0 : nth_error (beta0_list l') 0 = Some (- (1)))
    by (rewrite H0; reflexivity).
  assert (E1 : nth_error (beta1_list l') 0 = Some 1)
    by (rewrite H1; reflexivity).
  assert (E2 : nth_error (beta2_list l') 0 = Some 0)
    by (rewrite H2; reflexivity).
  destruct (H 0%nat _ _ _ _ Ed E0 E1 E2 (Qeq_refl 0))
    as ((s & Es & Hs) & _ & _ & (v & Hin & Hv)).
  exists l', w', T, (175000 # 700000), s, v.
  split; [exact E|]. split; [exact Ed|]. split; [exact E2|].
  split; [exact Es|]. split; [exact Hs|]. split; [exact Hin|].
  rewrite Hv. reflexivity.
Defined.

Lemma margin_nonnegative_witness :
  sqrt_laws Toy.sqrt4 /\
  margin_try (PLT := Toy.touching) (SQ := Toy.sqrt4) tt tt
    = Ok (Some (0 # 10000)) /\
  0 <= 0 # 10000.
Proof.
  split; [exact toy_sqrt_laws|]. split; [reflexivity|].
  exact (proj1 (margin_nonnegative (PLT := Toy.touching) (SQ := Toy.sqrt4)
                  toy_sqrt_laws tt tt (0 # 10000) eq_refl)).
Defined.
